(** * Monte Carlo threshold-crossing estimators over intraday price bars

    A shallow embedding of the two analysis scripts
    [analyze-exchange-rate.py] and
    [analyze-upward-threshold-with-condition.py], and the properties of
    their day partitioning, trial loop and aggregation.

    Modelling conventions.
    - Prices and percentages are Python/numpy double-precision numbers.
      They are modelled by exact rationals [Q], extended with [NaN] where
      numpy yields it ([np.std] and [np.mean] of an empty sample).  Rounding
      is not modelled.
    - The square root taken inside [np.std] is a parameter [sqrt] of the
      development: every statement holds for whatever function it is.
    - [np.random.randint] reads a global generator.  The generator is an
      explicit entropy stream [draw : nat -> nat]; the state threaded through
      the code is the position in that stream.
    - Python exceptions are the [Raise] results of an error monad.
    - Progress messages printed to the console are left out; the final
      summary line of the conditional script is kept, as a record. *)

From Stdlib Require Import Ascii String.
From Stdlib Require DecimalString DecimalNat.
From Stdlib Require Import ZArith QArith Qreduction List Lia Bool Arith.
From Stdlib Require Import Sorted Permutation SetoidList.
Import ListNotations.

Open Scope Q_scope.

(** ** The Python / numpy run-time the scripts rely on *)

Module Py.

Inductive exn : Type :=
| ZeroDivisionError
| ValueError
| IndexError
| Exception (msg : string).

Inductive result (A : Type) : Type :=
| Ok (a : A)
| Raise (e : exn).

Arguments Ok {A} a.
Arguments Raise {A} e.

(** Position in the entropy stream of the global generator. *)
Definition rng : Type := nat.

(** Computations that read the generator and may raise. *)
Definition M (A : Type) : Type := rng -> result (A * rng).

Definition ret {A : Type} (a : A) : M A := fun k => Ok (a, k).

Definition raise {A : Type} (e : exn) : M A := fun _ => Raise e.

Definition bind {A B : Type} (c : M A) (f : A -> M B) : M B :=
  fun k => match c k with
           | Ok (a, k') => f a k'
           | Raise e => Raise e
           end.

Definition lift {A : Type} (r : result A) : M A :=
  fun k => match r with
           | Ok a => Ok (a, k)
           | Raise e => Raise e
           end.

(** A double: a finite value or numpy's not-a-number. *)
Inductive float64 : Type :=
| NaN
| Fin (q : Q).

Definition fadd (x y : float64) : float64 :=
  match x, y with
  | Fin a, Fin b => Fin (a + b)
  | _, _ => NaN
  end.

Definition fmul (x y : float64) : float64 :=
  match x, y with
  | Fin a, Fin b => Fin (a * b)
  | _, _ => NaN
  end.

(** [Qlt_bool a b] is [a < b] on rationals. *)
Definition Qlt_bool (a b : Q) : bool :=
  (Qnum a * Zpos (Qden b) <? Qnum b * Zpos (Qden a))%Z.

(** [x > y]; any comparison with NaN is false. *)
Definition fgtb (x y : float64) : bool :=
  match x, y with
  | Fin a, Fin b => Qlt_bool b a
  | _, _ => false
  end.

(** [a / b] on Python ints: true division, raising on a zero divisor. *)
Definition true_div (a b : nat) : result Q :=
  match b with
  | O => Raise ZeroDivisionError
  | S _ => Ok (Z.of_nat a # Pos.of_nat b)
  end.

(** [s.iloc[i]] for a non-negative position [i]. *)
Definition iloc {A : Type} (s : list A) (i : nat) : result A :=
  match nth_error s i with
  | Some x => Ok x
  | None => Raise IndexError
  end.

(** [s.iloc[i:]]; slices never raise. *)
Definition iloc_from {A : Type} (s : list A) (i : nat) : list A := skipn i s.

(** Python's [any] over a generator of booleans. *)
Definition any {A : Type} (p : A -> bool) (xs : list A) : bool := existsb p xs.

Definition Qsum (xs : list Q) : Q := fold_right Qplus 0 xs.

Definition Qmean (xs : list Q) : Q := Qsum xs / inject_Z (Z.of_nat (length xs)).

(** [np.mean]: NaN on an empty sample. *)
Definition np_mean (xs : list Q) : float64 :=
  match xs with
  | [] => NaN
  | _ :: _ => Fin (Qmean xs)
  end.

(** The mean of squared deviations from the mean, which numpy divides by
    [N - ddof] with [ddof = 0]. *)
Definition np_var (xs : list Q) : Q :=
  let arrmean := Qmean xs in
  Qmean (map (fun x => (x - arrmean) * (x - arrmean)) xs).

Section Numpy.

Variable sqrt : Q -> Q.
Variable draw : nat -> nat.

(** [np.std] with its default [ddof = 0].  The root is taken of the value,
    in lowest terms, of the variance. *)
Definition np_std (xs : list Q) : float64 :=
  match xs with
  | [] => NaN
  | _ :: _ => Fin (sqrt (Qred (np_var xs)))
  end.

(** [np.random.randint(low, high)]: one draw, in [low .. high-1]. *)
Definition randint (low high : nat) : M nat :=
  fun k => if (low <? high)%nat
           then Ok ((low + draw k mod (high - low))%nat, S k)
           else Raise ValueError.

(** [np.random.choice(n, 2, replace=False)]: two distinct positions of
    [0 .. n-1], from two draws; the second draw picks among the [n - 1]
    positions left. *)
Definition choice2 (n : nat) : M (nat * nat) :=
  fun k => if (2 <=? n)%nat
           then let a := (draw k mod n)%nat in
                let b := (draw (S k) mod (n - 1))%nat in
                Ok ((a, if (b <? a)%nat then b else S b), S (S k))
           else Raise ValueError.

End Numpy.

(** [str(n)] of a non-negative int, as an f-string formats it. *)
Definition str_int (n : nat) : string :=
  DecimalString.NilEmpty.string_of_uint (Nat.to_uint n).

(** [s.iloc[-1]]. *)
Definition iloc_last {A : Type} (s : list A) : result A :=
  match s with
  | [] => Raise IndexError
  | _ :: _ => iloc s (length s - 1)
  end.

(** [sorted([a, b])], unpacked. *)
Definition sorted2 (a b : nat) : nat * nat :=
  if (b <? a)%nat then (b, a) else (a, b).

(** [for x in xs: body], on the variables [s] the body assigns. *)
Fixpoint for_each {A S : Type} (body : A -> S -> M S) (xs : list A) (s : S) : M S :=
  match xs with
  | [] => ret s
  | x :: rest => bind (body x s) (fun s' => for_each body rest s')
  end.

(** [for _ in range(n): body]. *)
Fixpoint for_range {S : Type} (body : S -> M S) (n : nat) (s : S) : M S :=
  match n with
  | O => ret s
  | S n' => bind (body s) (fun s' => for_range body n' s')
  end.

End Py.

Import Py.

Notation "x <- c ;; k" := (bind c (fun x => k))
  (at level 61, c at next level, right associativity).

(** ** The data table *)

(** One row of the hourly table: its index (seconds of local wall-clock
    time), the two price columns the scripts read, and the cell of the
    derived ['Date'] column, absent until the column is assigned. *)
Record Bar : Type := mkBar {
  timestamp : Z;
  Open : Q;
  Close : Q;
  Date : option Z
}.

Definition DataFrame : Type := list Bar.

(** [data.index.date]: the calendar day of a timestamp, no time-zone
    conversion. *)
Definition date_of (ts : Z) : Z := (ts / 86400)%Z.

Definition index_date (data : DataFrame) : list Z :=
  map (fun b => date_of (timestamp b)) data.

(** [data['Date'] = values], row by row. *)
Definition assign_Date (data : DataFrame) : DataFrame :=
  map (fun b => mkBar (timestamp b) (Open b) (Close b)
                      (Some (date_of (timestamp b)))) data.

(** The sorted distinct keys of a [groupby] (pandas sorts group keys). *)
Fixpoint insert_key (d : Z) (ks : list Z) : list Z :=
  match ks with
  | [] => [d]
  | k :: ks' =>
      if (d <? k)%Z then d :: ks
      else if (d =? k)%Z then ks
      else k :: insert_key d ks'
  end.

Definition group_keys (dates : list Z) : list Z :=
  fold_right insert_key [] dates.

(** [data.groupby(data.index.date)]: one sub-table per key, keys ascending,
    rows of a group in their original order. *)
Definition groupby_index_date (data : DataFrame) : list (Z * DataFrame) :=
  map (fun d => (d, filter (fun b => (date_of (timestamp b) =? d)%Z) data))
      (group_keys (index_date data)).

(** A dict in insertion order. *)
Definition DayGroups : Type := list (Z * DataFrame).

Definition values (daily_groups : DayGroups) : list DataFrame :=
  map snd daily_groups.

Definition close_values (day_data : DataFrame) : list Q := map Close day_data.

(** [results[mult] = percentage] on a dict kept in insertion order. *)
Fixpoint dict_set {V : Type} (d : list (Q * V)) (key : Q) (v : V) : list (Q * V) :=
  match d with
  | [] => [(key, v)]
  | (k, w) :: rest =>
      if Qeq_bool k key then (k, v) :: rest else (k, w) :: dict_set rest key v
  end.

(** ** analyze-exchange-rate.py *)

Module ExchangeRate.

(** The provider's answer [history] stands for [eurusd.history(...)]; the
    CSV copy written on the way is not modelled. *)
Definition download_forex_data (history : DataFrame) : result DataFrame :=
  let data := history in
  match data with
  | [] => Raise (Exception "No data downloaded")
  | _ :: _ => Ok data
  end.

(** [now] stands for the year and month of [datetime.now()]; creating the
    directory is not modelled. *)
Definition get_data_filename (now : nat * nat) : string :=
  let data_dir := "forex_data"%string in
  let current_date := now in
  (data_dir ++ "/"
   ++ ("eurusd_hourly_" ++ str_int (fst current_date) ++ "_"
       ++ str_int (snd current_date) ++ ".csv"))%string.

(** [mtime] is the year and month of the file's modification time, [None]
    when the file does not exist. *)
Definition is_data_fresh (mtime : option (nat * nat)) (now : nat * nat) : bool :=
  match mtime with
  | None => false
  | Some file_mtime =>
      let current_time := now in
      (fst file_mtime =? fst current_time)%nat
      && (snd file_mtime =? snd current_time)%nat
  end.

(** Returns the table as the call leaves it, and the dict it returns. *)
Definition group_by_trading_day (data : DataFrame) : DataFrame * DayGroups :=
  let data := assign_Date data in
  let daily_groups := groupby_index_date data in
  (data, daily_groups).

Section Engine.

Variable sqrt : Q -> Q.
Variable draw : nat -> nat.

(** The [extend] loop over [daily_groups.values()]. *)
Definition all_prices (daily_groups : DayGroups) : list Q :=
  fold_left (fun all_prices day_data => all_prices ++ close_values day_data)
            (values daily_groups) [].

(** Body of [for date, day_data in daily_groups.items()], on the counter. *)
Definition day_body (multiplier : Q) (overall_stdev : float64)
    (day_data : DataFrame) (count : nat) : M nat :=
  if (1 <? length day_data)%nat then
    let mid_point := (length day_data / 2)%nat in
    first_half_idx <- randint draw 0 mid_point ;;
    first_half_price <- lift (iloc (close_values day_data) first_half_idx) ;;
    let threshold := fadd (Fin first_half_price) (fmul (Fin multiplier) overall_stdev) in
    let remaining_prices := iloc_from (close_values day_data) (first_half_idx + 1) in
    if any (fun price => fgtb (Fin price) threshold) remaining_prices
    then ret (count + 1)%nat
    else ret count
  else ret count.

Fixpoint day_loop (multiplier : Q) (overall_stdev : float64)
    (items : DayGroups) (count : nat) : M nat :=
  match items with
  | [] => ret count
  | (_, day_data) :: rest =>
      count <- day_body multiplier overall_stdev day_data count ;;
      day_loop multiplier overall_stdev rest count
  end.

(** Body of [for sim in range(num_simulations)], on the list [results]. *)
Definition sim_body (daily_groups : DayGroups) (multiplier : Q)
    (overall_stdev : float64) (results : list Q) : M (list Q) :=
  let count := 0%nat in
  let total_days := length daily_groups in
  count <- day_loop multiplier overall_stdev daily_groups count ;;
  ratio <- lift (true_div count total_days) ;;
  ret (results ++ [ratio * 100]).

Fixpoint sim_loop (daily_groups : DayGroups) (multiplier : Q)
    (overall_stdev : float64) (sims : nat) (results : list Q) : M (list Q) :=
  match sims with
  | O => ret results
  | S sims' =>
      results <- sim_body daily_groups multiplier overall_stdev results ;;
      sim_loop daily_groups multiplier overall_stdev sims' results
  end.

Definition calculate_threshold_crossing (daily_groups : DayGroups)
    (multiplier : Q) (num_simulations : nat) : M (float64 * float64) :=
  let overall_stdev := np_std sqrt (all_prices daily_groups) in
  let results := [] in
  results <- sim_loop daily_groups multiplier overall_stdev num_simulations results ;;
  ret (np_mean results, overall_stdev).

Definition default_multipliers : list Q :=
  [1 # 100; 5 # 100; 1 # 10; 2 # 10; 35 # 100; 5 # 10; 1; 15 # 10; 2; 3; 4].

Definition default_num_simulations : nat := 100.

Fixpoint multiplier_loop (daily_groups : DayGroups) (multipliers : list Q)
    (results : list (Q * float64)) : M (list (Q * float64)) :=
  match multipliers with
  | [] => ret results
  | mult :: rest =>
      r <- calculate_threshold_crossing daily_groups mult default_num_simulations ;;
      let percentage := fst r in
      multiplier_loop daily_groups rest (dict_set results mult percentage)
  end.

Definition run_threshold_analysis (daily_groups : DayGroups)
    (multipliers : list Q) : M (list (Q * float64)) :=
  multiplier_loop daily_groups multipliers [].

(** [main], returning the summary it prints.  Any exception is printed and
    raised again. *)
Definition main (history : DataFrame) : M (list (Q * float64)) :=
  data <- lift (download_forex_data history) ;;
  let daily_groups := snd (group_by_trading_day data) in
  run_threshold_analysis daily_groups default_multipliers.

(** Body of the loop of [calculate_daily_higher_close]. *)
Definition higher_close_day (item : Z * DataFrame) (count : nat) : M nat :=
  let day_data := snd item in
  if (0 <? length day_data)%nat then
    day_close <- lift (iloc_last (close_values day_data)) ;;
    day_open <- lift (iloc (map Open day_data) 0) ;;
    if fgtb (Fin day_close) (Fin day_open) then ret (count + 1)%nat else ret count
  else ret count.

Definition calculate_daily_higher_close (daily_groups : DayGroups) : M Q :=
  let count := 0%nat in
  let total_days := length daily_groups in
  count <- for_each higher_close_day daily_groups count ;;
  ratio <- lift (true_div count total_days) ;;
  ret (ratio * 100).

(** Body of the day loop of [calculate_random_point_vs_close]. *)
Definition point_vs_close_day (item : Z * DataFrame) (count : nat) : M nat :=
  let day_data := snd item in
  if (0 <? length day_data)%nat then
    random_idx <- randint draw 0 (length day_data) ;;
    random_price <- lift (iloc (close_values day_data) random_idx) ;;
    day_close <- lift (iloc_last (close_values day_data)) ;;
    if fgtb (Fin day_close) (Fin random_price) then ret (count + 1)%nat else ret count
  else ret count.

Definition point_vs_close_sim (daily_groups : DayGroups) (results : list Q)
    : M (list Q) :=
  let count := 0%nat in
  let total_days := length daily_groups in
  count <- for_each point_vs_close_day daily_groups count ;;
  ratio <- lift (true_div count total_days) ;;
  ret (results ++ [ratio * 100]).

Definition calculate_random_point_vs_close (daily_groups : DayGroups)
    (num_simulations : nat) : M float64 :=
  let results := [] in
  results <- for_range (point_vs_close_sim daily_groups) num_simulations results ;;
  ret (np_mean results).

(** Body of the day loop of [calculate_random_points_comparison]. *)
Definition points_comparison_day (item : Z * DataFrame) (count : nat) : M nat :=
  let day_data := snd item in
  if (1 <? length day_data)%nat then
    idx <- choice2 draw (length day_data) ;;
    let '(idx1, idx2) := sorted2 (fst idx) (snd idx) in
    price1 <- lift (iloc (close_values day_data) idx1) ;;
    price2 <- lift (iloc (close_values day_data) idx2) ;;
    if fgtb (Fin price2) (Fin price1) then ret (count + 1)%nat else ret count
  else ret count.

Definition points_comparison_sim (daily_groups : DayGroups) (results : list Q)
    : M (list Q) :=
  let count := 0%nat in
  let total_days := length daily_groups in
  count <- for_each points_comparison_day daily_groups count ;;
  ratio <- lift (true_div count total_days) ;;
  ret (results ++ [ratio * 100]).

Definition calculate_random_points_comparison (daily_groups : DayGroups)
    (num_simulations : nat) : M float64 :=
  let results := [] in
  results <- for_range (points_comparison_sim daily_groups) num_simulations results ;;
  ret (np_mean results).

End Engine.

End ExchangeRate.

(** ** analyze-upward-threshold-with-condition.py *)

Module UpwardCondition.

Definition download_forex_data (history : DataFrame) : result DataFrame :=
  let data := history in
  match data with
  | [] => Raise (Exception "No data downloaded")
  | _ :: _ => Ok data
  end.

Definition group_by_trading_day (data : DataFrame) : DataFrame * DayGroups :=
  let data := assign_Date data in
  let daily_groups := groupby_index_date data in
  (data, daily_groups).

(** The counters the simulation loops update. *)
Record Counters : Type := mkCounters {
  good_trade_count : nat;
  bad_trade_count : nat;
  no_action_count : nat
}.

(** The line printed when the simulation is done. *)
Record DoneLine : Type := mkDoneLine {
  printed_good : nat;
  printed_bad : nat;
  printed_skipped : nat;
  printed_pct : Q;
  printed_pct_for_all : float64
}.

Section Engine.

Variable sqrt : Q -> Q.
Variable draw : nat -> nat.

Definition all_prices (daily_groups : DayGroups) : list Q :=
  fold_left (fun all_prices day_data => all_prices ++ close_values day_data)
            (values daily_groups) [].

(** Body of the loop over the days, on [count] and the three counters. *)
Definition day_body (multiplier : Q) (overall_stdev : float64)
    (day_data : DataFrame) (st : nat * Counters) : M (nat * Counters) :=
  let '(count, c) := st in
  if (1 <? length day_data)%nat then
    let mid_point := (length day_data / 2)%nat in
    first_half_idx <- randint draw 0 mid_point ;;
    first_half_price <- lift (iloc (close_values day_data) first_half_idx) ;;
    start_day_price <- lift (iloc (close_values day_data) 0) ;;
    let threshold := fadd (Fin first_half_price) (fmul (Fin multiplier) overall_stdev) in
    let remaining_prices := iloc_from (close_values day_data) (first_half_idx + 1) in
    let count :=
      if any (fun price => fgtb (Fin price) threshold) remaining_prices
      then (count + 1)%nat else count in
    if fgtb (Fin first_half_price) (Fin start_day_price) then
      ret (count, mkCounters (good_trade_count c) (bad_trade_count c)
                             (no_action_count c + 1))
    else if any (fun price => fgtb (Fin price) threshold) remaining_prices then
      ret (count, mkCounters (good_trade_count c + 1) (bad_trade_count c)
                             (no_action_count c))
    else
      ret (count, mkCounters (good_trade_count c) (bad_trade_count c + 1)
                             (no_action_count c))
  else ret (count, c).

Fixpoint day_loop (multiplier : Q) (overall_stdev : float64)
    (items : DayGroups) (st : nat * Counters) : M (nat * Counters) :=
  match items with
  | [] => ret st
  | (_, day_data) :: rest =>
      st <- day_body multiplier overall_stdev day_data st ;;
      day_loop multiplier overall_stdev rest st
  end.

Definition sim_body (daily_groups : DayGroups) (multiplier : Q)
    (overall_stdev : float64) (st : list Q * Counters) : M (list Q * Counters) :=
  let '(results, c) := st in
  let count := 0%nat in
  let total_days := length daily_groups in
  r <- day_loop multiplier overall_stdev daily_groups (count, c) ;;
  let '(count, c) := r in
  ratio <- lift (true_div count total_days) ;;
  ret (results ++ [ratio * 100], c).

Fixpoint sim_loop (daily_groups : DayGroups) (multiplier : Q)
    (overall_stdev : float64) (sims : nat) (st : list Q * Counters)
    : M (list Q * Counters) :=
  match sims with
  | O => ret st
  | S sims' =>
      st <- sim_body daily_groups multiplier overall_stdev st ;;
      sim_loop daily_groups multiplier overall_stdev sims' st
  end.

(** Returns the pair the function returns, and the line it prints. *)
Definition calculate_threshold_crossing (daily_groups : DayGroups)
    (multiplier : Q) (num_simulations : nat) : M ((Q * float64) * DoneLine) :=
  let overall_stdev := np_std sqrt (all_prices daily_groups) in
  let results := [] in
  let c := mkCounters 0 0 0 in
  r <- sim_loop daily_groups multiplier overall_stdev num_simulations (results, c) ;;
  let '(results, c) := r in
  ratio <- lift (true_div (good_trade_count c)
                          (good_trade_count c + bad_trade_count c)) ;;
  let good_pct := ratio * 100 in
  ret ((good_pct, overall_stdev),
       mkDoneLine (good_trade_count c) (bad_trade_count c) (no_action_count c)
                  good_pct (np_mean results)).

Definition default_multipliers : list Q := [1 # 100; 5 # 100; 1 # 10; 2 # 10].

Definition default_num_simulations : nat := 100.

Fixpoint multiplier_loop (daily_groups : DayGroups) (multipliers : list Q)
    (results : list (Q * Q)) : M (list (Q * Q)) :=
  match multipliers with
  | [] => ret results
  | mult :: rest =>
      r <- calculate_threshold_crossing daily_groups mult default_num_simulations ;;
      let percentage := fst (fst r) in
      multiplier_loop daily_groups rest (dict_set results mult percentage)
  end.

Definition run_threshold_analysis (daily_groups : DayGroups)
    (multipliers : list Q) : M (list (Q * Q)) :=
  multiplier_loop daily_groups multipliers [].

Definition main (history : DataFrame) : M (list (Q * Q)) :=
  data <- lift (download_forex_data history) ;;
  let daily_groups := snd (group_by_trading_day data) in
  run_threshold_analysis daily_groups default_multipliers.

End Engine.

End UpwardCondition.

(** ** Reference definitions the properties are stated against *)

(** [x > y] as a proposition; false when either side is NaN. *)
Definition fgt (x y : float64) : Prop :=
  match x, y with
  | Fin a, Fin b => b < a
  | _, _ => False
  end.

(** A dispersion statistic that is not negative (NaN is not negative). *)
Definition nonneg (s : float64) : Prop :=
  match s with
  | Fin q => 0 <= q
  | NaN => True
  end.

(** The threshold of a trial: the offset is added to the reference price. *)
Definition threshold_at (reference_price multiplier : Q) (dispersion : float64)
    : float64 :=
  fadd (Fin reference_price) (fmul (Fin multiplier) dispersion).

(** Some bar at an index in [r+1 .. n-1] closes above the threshold taken
    at bar [r]. *)
Definition crosses (closes : list Q) (r : nat) (multiplier : Q)
    (dispersion : float64) : Prop :=
  exists reference_price i p,
    nth_error closes r = Some reference_price /\
    (r + 1 <= i <= length closes - 1)%nat /\
    nth_error closes i = Some p /\
    fgt (Fin p) (threshold_at reference_price multiplier dispersion).

(** The same test, decided index by index. *)
Definition crossedb (closes : list Q) (r : nat) (multiplier : Q)
    (dispersion : float64) : bool :=
  match nth_error closes r with
  | Some reference_price =>
      existsb (fun i => match nth_error closes i with
                        | Some p => fgtb (Fin p)
                                      (threshold_at reference_price multiplier dispersion)
                        | None => false
                        end)
              (seq (r + 1) (length closes - (r + 1)))
  | None => false
  end.

Inductive Outcome : Type := skipped | good | bad.

Definition Outcome_eqb (a b : Outcome) : bool :=
  match a, b with
  | skipped, skipped | good, good | bad, bad => true
  | _, _ => false
  end.

(** The conditional classification of a day at reference index [r]. *)
Definition classify (closes : list Q) (r : nat) (multiplier : Q)
    (dispersion : float64) : option Outcome :=
  match nth_error closes r, nth_error closes 0 with
  | Some reference_price, Some start_day_price =>
      if Qlt_bool start_day_price reference_price then Some skipped
      else if crossedb closes r multiplier dispersion then Some good
      else Some bad
  | _, _ => None
  end.

(** The close columns of the days that take part in a trial (two bars or
    more), in iteration order. *)
Definition trial_eligible (daily_groups : DayGroups) : list (list Q) :=
  filter (fun closes => (2 <=? length closes)%nat)
         (map close_values (values daily_groups)).

(** What a tally adds to a counter. *)
Definition tick (b : bool) : nat := if b then 1%nat else 0%nat.

(** What a day classified [cl] adds to the counter of outcome [o]. *)
Definition outcome_tick (o : Outcome) (cl : option Outcome) : nat :=
  tick (match cl with
        | Some o' => Outcome_eqb o o'
        | None => false
        end).

(** The counters after [g] good, [b] bad and [n] skipped days more. *)
Definition add_outcomes (c : UpwardCondition.Counters) (g b n : nat)
    : UpwardCondition.Counters :=
  UpwardCondition.mkCounters
    (UpwardCondition.good_trade_count c + g)
    (UpwardCondition.bad_trade_count c + b)
    (UpwardCondition.no_action_count c + n).

(** Days tallied by the three counters together. *)
Definition counted (c : UpwardCondition.Counters) : nat :=
  (UpwardCondition.good_trade_count c + UpwardCondition.bad_trade_count c
   + UpwardCondition.no_action_count c)%nat.

(** A percentage as the code forms it: [count / total * 100]. *)
Definition percentage (count total : nat) : Q :=
  (Z.of_nat count # Pos.of_nat total) * 100.

(** The run percentage in the spec's words: crossed days over the days with
    two bars or more. *)
Definition run_percentage_spec (crossed_days eligible_days : nat) : Q :=
  100 * inject_Z (Z.of_nat crossed_days) / inject_Z (Z.of_nat eligible_days).

(** The primary estimate of the conditional variant in the spec's words. *)
Definition good_pct_spec (good_total bad_total : nat) : Q :=
  100 * inject_Z (Z.of_nat good_total)
  / inject_Z (Z.of_nat (good_total + bad_total)).

(** The pooled population variance in the spec's words:
    [mean(x^2) - mean(x)^2]. *)
Definition variance_spec (xs : list Q) : Q :=
  Qmean (map (fun x => x * x) xs) - Qmean xs * Qmean xs.

(** Day partitioning in the spec's words: an empty Series is an error. *)
Definition partition_spec (data : DataFrame) : result (DataFrame * DayGroups) :=
  match data with
  | [] => Raise (Exception "EmptySeriesError")
  | _ :: _ => Ok (ExchangeRate.group_by_trading_day data)
  end.

(** Rows in non-decreasing order of calendar day. *)
Definition date_sorted (data : DataFrame) : Prop :=
  StronglySorted (fun a b => (date_of (timestamp a) <= date_of (timestamp b))%Z) data.

Definition is_digit (a : ascii) : bool :=
  match a with
  | "0" | "1" | "2" | "3" | "4" | "5" | "6" | "7" | "8" | "9" => true
  | _ => false
  end%char.

(** A string of decimal digits. *)
Fixpoint digit_string (s : string) : Prop :=
  match s with
  | EmptyString => True
  | String a rest => is_digit a = true /\ digit_string rest
  end.

(** The last close of a day is above its first open. *)
Definition closed_higher (day_data : DataFrame) : bool :=
  match day_data with
  | [] => false
  | first :: _ => Qlt_bool (Open first) (Close (last day_data first))
  end.

(** The bar of the data model: a row without its derived cell. *)
Definition bar_of (b : Bar) : Z * Q * Q := (timestamp b, Open b, Close b).

Section Reference.

Variable draw : nat -> nat.

(** The reference index drawn, at stream position [k], for a day. *)
Definition ref_index (closes : list Q) (k : nat) : nat :=
  (draw k mod (length closes / 2))%nat.

(** Days classified crossed in one run that starts at stream position [k];
    the j-th eligible day uses draw [k + j]. *)
Fixpoint count_crossed (multiplier : Q) (dispersion : float64)
    (eligible : list (list Q)) (k : nat) : nat :=
  match eligible with
  | [] => 0
  | closes :: rest =>
      (tick (crossedb closes (ref_index closes k) multiplier dispersion)
       + count_crossed multiplier dispersion rest (S k))%nat
  end.

(** Days given outcome [o] in one run that starts at stream position [k]. *)
Fixpoint count_outcome (o : Outcome) (multiplier : Q) (dispersion : float64)
    (eligible : list (list Q)) (k : nat) : nat :=
  match eligible with
  | [] => 0
  | closes :: rest =>
      (outcome_tick o (classify closes (ref_index closes k) multiplier dispersion)
       + count_outcome o multiplier dispersion rest (S k))%nat
  end.

(** The per-run percentages of [sims] successive runs; each run uses as
    many draws as there are eligible days. *)
Fixpoint run_percentages (multiplier : Q) (dispersion : float64)
    (daily_groups : DayGroups) (sims k : nat) : list Q :=
  match sims with
  | O => []
  | S sims' =>
      percentage (count_crossed multiplier dispersion (trial_eligible daily_groups) k)
                 (length daily_groups)
      :: run_percentages multiplier dispersion daily_groups sims'
           (k + length (trial_eligible daily_groups))
  end.

(** Days given outcome [o], pooled over [sims] successive runs. *)
Fixpoint pooled_outcome (o : Outcome) (multiplier : Q) (dispersion : float64)
    (daily_groups : DayGroups) (sims k : nat) : nat :=
  match sims with
  | O => 0
  | S sims' =>
      (count_outcome o multiplier dispersion (trial_eligible daily_groups) k
       + pooled_outcome o multiplier dispersion daily_groups sims'
           (k + length (trial_eligible daily_groups)))%nat
  end.

End Reference.

(** ** Sample inputs *)

(** A root to six decimals, for running the definitions. *)
Definition sqrt6 (q : Q) : Q :=
  Z.sqrt (Qnum q * 1000000000000 / Zpos (Qden q)) # 1000000.

Definition draw_zero : nat -> nat := fun _ => 0%nat.

Definition draw_one : nat -> nat := fun _ => 1%nat.

Definition bar (ts : Z) (c : Q) : Bar := mkBar ts c c None.

(** A stream that gives 0 at its first two positions and 1 afterwards. *)
Definition draw_zero_then_one : nat -> nat :=
  fun j => if (j <? 2)%nat then 0%nat else 1%nat.

(** Two days; the second has a single bar. *)
Definition two_days : DayGroups :=
  [(0%Z, [bar 0 10; bar 3600 20]); (1%Z, [bar 86400 5])].

(** One day of four bars whose second close is above the first. *)
Definition peak_day : DayGroups :=
  [(0%Z, [bar 0 10; bar 3600 20; bar 7200 5; bar 10800 5])].

(** One day with closes 10, 10, 10, 10, 100. *)
Definition five_bar_day : DataFrame :=
  [bar 0 10; bar 3600 10; bar 7200 10; bar 10800 10; bar 14400 100].

(** Three single-bar days. *)
Definition thin_days : DayGroups :=
  [(0%Z, [bar 0 10]); (1%Z, [bar 86400 11]); (2%Z, [bar 172800 12])].

(** A loaded series over two calendar days. *)
Definition sample_series : DataFrame :=
  [bar 82800 10; bar 86400 11; bar 90000 12; bar 172800 9].

(** * Properties *)

(** ** Comparisons and slices *)

Lemma Qlt_bool_iff (a b : Q) : Qlt_bool a b = true <-> a < b.
Proof. unfold Qlt_bool, Qlt. apply Z.ltb_lt. Qed.

Lemma fgtb_fgt (x y : float64) : fgtb x y = true <-> fgt x y.
Proof.
  destruct x as [|a], y as [|b]; simpl;
    try (split; [discriminate | tauto]).
  apply Qlt_bool_iff.
Qed.

Lemma existsb_nth_shift {A : Type} (p : A -> bool) (x : A) (l : list A) (n a : nat) :
  existsb (fun i => match nth_error (x :: l) i with
                    | Some y => p y
                    | None => false
                    end) (seq (S a) n)
  = existsb (fun i => match nth_error l i with
                      | Some y => p y
                      | None => false
                      end) (seq a n).
Proof.
  revert a. induction n as [|n IH]; intros a; simpl; [reflexivity|].
  f_equal. apply IH.
Qed.

(** Scanning the slice [s.iloc[a:]] is scanning the positions [a .. n-1]. *)
Lemma any_iloc_from {A : Type} (p : A -> bool) (l : list A) (a : nat) :
  any p (iloc_from l a)
  = existsb (fun i => match nth_error l i with
                      | Some y => p y
                      | None => false
                      end) (seq a (length l - a)).
Proof.
  unfold any, iloc_from. revert a.
  induction l as [|x l IH]; intros a.
  - destruct a; reflexivity.
  - destruct a as [|a].
    + cbn [skipn length]. rewrite Nat.sub_0_r. cbn [seq existsb nth_error].
      rewrite existsb_nth_shift. f_equal.
      specialize (IH 0%nat). cbn [skipn] in IH.
      rewrite Nat.sub_0_r in IH.
      destruct l; exact IH.
    + cbn [skipn length]. rewrite Nat.sub_succ, existsb_nth_shift. apply IH.
Qed.

Lemma crossedb_crosses (closes : list Q) (r : nat) (m : Q) (s : float64) :
  crossedb closes r m s = true <-> crosses closes r m s.
Proof.
  unfold crossedb, crosses. split.
  - destruct (nth_error closes r) as [ref|] eqn:Hr; [|discriminate].
    intros H. apply existsb_exists in H. destruct H as [i [Hi Hp]].
    apply in_seq in Hi.
    destruct (nth_error closes i) as [p|] eqn:Hn; [|discriminate].
    exists ref, i, p. repeat split; try assumption; try lia.
    apply fgtb_fgt. exact Hp.
  - intros [ref [i [p [Hr [Hi [Hn Hp]]]]]]. rewrite Hr.
    apply existsb_exists. exists i. split.
    + apply in_seq. lia.
    + rewrite Hn. apply fgtb_fgt. exact Hp.
Qed.

(** ** The draw *)

Section Draw.

Variable draw : nat -> nat.

Lemma randint_from_zero (high k : nat) :
  (0 < high)%nat ->
  randint draw 0 high k = Ok ((draw k mod high)%nat, S k).
Proof.
  intros H. unfold randint.
  destruct (0 <? high)%nat eqn:E.
  - rewrite Nat.sub_0_r. reflexivity.
  - apply Nat.ltb_ge in E. lia.
Qed.

(** Every index below [high] is the outcome of some draw. *)
Lemma randint_any_index (high r k : nat) :
  (r < high)%nat ->
  exists raw, (raw k mod high)%nat = r /\ forall j, (raw j mod high < high)%nat.
Proof.
  intros H. exists (fun _ => r). split.
  - apply Nat.mod_small. exact H.
  - intros j. apply Nat.mod_upper_bound. lia.
Qed.

Lemma half_pos (n : nat) : (2 <= n)%nat -> (0 < n / 2)%nat.
Proof. intros H. apply Nat.div_str_pos. lia. Qed.

Lemma half_le (n : nat) : (n / 2 <= n)%nat.
Proof. apply Nat.Div0.div_le_upper_bound. lia. Qed.

Lemma ref_index_first_half (closes : list Q) (k : nat) :
  (2 <= length closes)%nat ->
  (ref_index draw closes k < length closes / 2)%nat.
Proof.
  intros H. unfold ref_index. apply Nat.mod_upper_bound.
  pose proof (half_pos _ H). lia.
Qed.

Lemma ref_index_in_range (closes : list Q) (k : nat) :
  (2 <= length closes)%nat ->
  exists reference_price,
    nth_error closes (ref_index draw closes k) = Some reference_price.
Proof.
  intros H. pose proof (ref_index_first_half closes k H) as Hr.
  pose proof (half_le (length closes)) as Hle.
  destruct (nth_error closes (ref_index draw closes k)) as [p|] eqn:E.
  - exists p. reflexivity.
  - apply nth_error_None in E. lia.
Qed.

End Draw.

(** ** The unconditional trial loop *)

Section ExchangeRateFacts.

Variable draw : nat -> nat.

Lemma eligible_guard (day_data : DataFrame) :
  (1 <? length day_data)%nat = (2 <=? length (close_values day_data))%nat.
Proof.
  unfold close_values. rewrite length_map.
  destruct (1 <? length day_data)%nat eqn:E1, (2 <=? length day_data)%nat eqn:E2;
    try reflexivity.
  - apply Nat.ltb_lt in E1. apply Nat.leb_gt in E2. lia.
  - apply Nat.ltb_ge in E1. apply Nat.leb_le in E2. lia.
Qed.

(** A day of two bars or more takes one draw and ticks the counter exactly
    when the day crosses. *)
Lemma day_body_eligible (m : Q) (s : float64) (day_data : DataFrame) (count k : nat) :
  (2 <= length day_data)%nat ->
  ExchangeRate.day_body draw m s day_data count k
  = Ok ((count + tick (crossedb (close_values day_data)
                         (ref_index draw (close_values day_data) k) m s))%nat,
        S k).
Proof.
  intros Hn. unfold ExchangeRate.day_body.
  assert (Hlen : length (close_values day_data) = length day_data)
    by (unfold close_values; apply length_map).
  destruct (1 <? length day_data)%nat eqn:E;
    [|apply Nat.ltb_ge in E; lia].
  unfold bind. rewrite randint_from_zero by (apply half_pos; exact Hn).
  destruct (ref_index_in_range draw (close_values day_data) k) as [ref Href];
    [lia|].
  unfold ref_index in *. rewrite Hlen in *.
  unfold lift, iloc. rewrite Href.
  rewrite any_iloc_from. unfold crossedb. rewrite Href, Hlen.
  unfold threshold_at.
  match goal with |- context [if ?b then _ else _] => destruct b end;
    unfold ret, tick; f_equal; f_equal; lia.
Qed.

(** A day of fewer than two bars takes no draw and leaves the counter. *)
Lemma day_body_thin (m : Q) (s : float64) (day_data : DataFrame) (count k : nat) :
  (length day_data < 2)%nat ->
  ExchangeRate.day_body draw m s day_data count k = Ok (count, k).
Proof.
  intros Hn. unfold ExchangeRate.day_body.
  destruct (1 <? length day_data)%nat eqn:E; [apply Nat.ltb_lt in E; lia|].
  reflexivity.
Qed.

(** The loop over the days counts the crossed eligible days and advances the
    generator by the number of eligible days. *)
Lemma day_loop_counts (m : Q) (s : float64) (items : DayGroups) (count k : nat) :
  ExchangeRate.day_loop draw m s items count k
  = Ok ((count + count_crossed draw m s (trial_eligible items) k)%nat,
        (k + length (trial_eligible items))%nat).
Proof.
  revert count k. induction items as [|[date day_data] rest IH]; intros count k.
  - cbn. unfold ret. f_equal. f_equal; lia.
  - cbn [ExchangeRate.day_loop]. unfold bind.
    unfold trial_eligible, values in *. cbn [map snd filter].
    rewrite <- eligible_guard.
    destruct (1 <? length day_data)%nat eqn:E.
    + apply Nat.ltb_lt in E.
      rewrite day_body_eligible by lia. rewrite IH.
      cbn [count_crossed length]. f_equal. f_equal; lia.
    + apply Nat.ltb_ge in E.
      rewrite day_body_thin by lia. apply IH.
Qed.

Lemma true_div_pos (a b : nat) :
  (0 < b)%nat -> true_div a b = Ok (Z.of_nat a # Pos.of_nat b).
Proof. destruct b; [lia | reflexivity]. Qed.

Lemma sim_body_percentage (daily_groups : DayGroups) (m : Q) (s : float64)
    (results : list Q) (k : nat) :
  daily_groups <> [] ->
  ExchangeRate.sim_body draw daily_groups m s results k
  = Ok (results
        ++ [percentage (count_crossed draw m s (trial_eligible daily_groups) k)
                       (length daily_groups)],
        (k + length (trial_eligible daily_groups))%nat).
Proof.
  intros Hne. unfold ExchangeRate.sim_body, bind.
  rewrite day_loop_counts. cbn [Nat.add].
  rewrite true_div_pos by (destruct daily_groups; [congruence | cbn; lia]).
  reflexivity.
Qed.

Lemma sim_body_no_days (m : Q) (s : float64) (results : list Q) (k : nat) :
  ExchangeRate.sim_body draw [] m s results k = Raise ZeroDivisionError.
Proof. reflexivity. Qed.

Lemma sim_loop_percentages (daily_groups : DayGroups) (m : Q) (s : float64)
    (sims : nat) (results : list Q) (k : nat) :
  daily_groups <> [] ->
  ExchangeRate.sim_loop draw daily_groups m s sims results k
  = Ok (results ++ run_percentages draw m s daily_groups sims k,
        (k + sims * length (trial_eligible daily_groups))%nat).
Proof.
  intros Hne. revert results k.
  induction sims as [|sims IH]; intros results k.
  - cbn. unfold ret. rewrite app_nil_r. f_equal. f_equal. lia.
  - cbn [ExchangeRate.sim_loop run_percentages]. unfold bind.
    rewrite sim_body_percentage by exact Hne. rewrite IH.
    rewrite <- app_assoc. cbn [app]. f_equal. f_equal. lia.
Qed.

End ExchangeRateFacts.

(** ** The conditional trial loop *)

Section UpwardConditionFacts.

Variable draw : nat -> nat.

Lemma add_outcomes_assoc (c : UpwardCondition.Counters) (g b n g' b' n' : nat) :
  add_outcomes (add_outcomes c g b n) g' b' n'
  = add_outcomes c (g + g') (b + b') (n + n').
Proof. unfold add_outcomes. cbn. f_equal; lia. Qed.

Lemma add_outcomes_zero (c : UpwardCondition.Counters) : add_outcomes c 0 0 0 = c.
Proof. destruct c. unfold add_outcomes. cbn. f_equal; lia. Qed.

(** A day of two bars or more takes one draw, ticks [count] when it crosses
    and ticks the counter of its classification. *)
Lemma cond_day_body_eligible (m : Q) (s : float64) (day_data : DataFrame)
    (count : nat) (c : UpwardCondition.Counters) (k : nat) :
  (2 <= length day_data)%nat ->
  let closes := close_values day_data in
  let r := ref_index draw closes k in
  UpwardCondition.day_body draw m s day_data (count, c) k
  = Ok (((count + tick (crossedb closes r m s))%nat,
         add_outcomes c (outcome_tick good (classify closes r m s))
                        (outcome_tick bad (classify closes r m s))
                        (outcome_tick skipped (classify closes r m s))),
        S k).
Proof.
  intros Hn closes r. subst closes r. unfold UpwardCondition.day_body.
  assert (Hlen : length (close_values day_data) = length day_data)
    by (unfold close_values; apply length_map).
  destruct (1 <? length day_data)%nat eqn:E;
    [|apply Nat.ltb_ge in E; lia].
  unfold bind. rewrite randint_from_zero by (apply half_pos; exact Hn).
  destruct (ref_index_in_range draw (close_values day_data) k) as [ref Href];
    [lia|].
  destruct (nth_error (close_values day_data) 0) as [start|] eqn:Hstart;
    [|apply nth_error_None in Hstart; lia].
  unfold classify. rewrite Href, Hstart.
  unfold ref_index in *. rewrite Hlen in *.
  unfold lift, iloc. rewrite Href, Hstart.
  rewrite any_iloc_from. unfold crossedb. rewrite Href, Hlen.
  unfold threshold_at. cbn [fgtb].
  destruct (Qlt_bool start ref);
    match goal with |- context [if ?b then _ else _] => destruct b end;
    unfold ret, add_outcomes, outcome_tick, tick; cbn;
    repeat f_equal; lia.
Qed.

Lemma cond_day_body_thin (m : Q) (s : float64) (day_data : DataFrame)
    (st : nat * UpwardCondition.Counters) (k : nat) :
  (length day_data < 2)%nat ->
  UpwardCondition.day_body draw m s day_data st k = Ok (st, k).
Proof.
  intros Hn. destruct st as [count c]. unfold UpwardCondition.day_body.
  destruct (1 <? length day_data)%nat eqn:E; [apply Nat.ltb_lt in E; lia|].
  reflexivity.
Qed.

Lemma cond_day_loop_counts (m : Q) (s : float64) (items : DayGroups)
    (count : nat) (c : UpwardCondition.Counters) (k : nat) :
  UpwardCondition.day_loop draw m s items (count, c) k
  = Ok (((count + count_crossed draw m s (trial_eligible items) k)%nat,
         add_outcomes c
           (count_outcome draw good m s (trial_eligible items) k)
           (count_outcome draw bad m s (trial_eligible items) k)
           (count_outcome draw skipped m s (trial_eligible items) k)),
        (k + length (trial_eligible items))%nat).
Proof.
  revert count c k.
  induction items as [|[date day_data] rest IH]; intros count c k.
  - cbn. unfold ret. rewrite add_outcomes_zero. f_equal. f_equal; [f_equal|]; lia.
  - cbn [UpwardCondition.day_loop]. unfold bind.
    unfold trial_eligible, values in *. cbn [map snd filter].
    rewrite <- eligible_guard.
    destruct (1 <? length day_data)%nat eqn:E.
    + apply Nat.ltb_lt in E.
      rewrite cond_day_body_eligible by lia. rewrite IH.
      cbn [count_crossed count_outcome length].
      rewrite add_outcomes_assoc. f_equal. f_equal; [f_equal|]; lia.
    + apply Nat.ltb_ge in E.
      rewrite cond_day_body_thin by lia. apply IH.
Qed.

Lemma cond_sim_body_percentage (daily_groups : DayGroups) (m : Q) (s : float64)
    (results : list Q) (c : UpwardCondition.Counters) (k : nat) :
  daily_groups <> [] ->
  UpwardCondition.sim_body draw daily_groups m s (results, c) k
  = Ok ((results
         ++ [percentage (count_crossed draw m s (trial_eligible daily_groups) k)
                        (length daily_groups)],
         add_outcomes c
           (count_outcome draw good m s (trial_eligible daily_groups) k)
           (count_outcome draw bad m s (trial_eligible daily_groups) k)
           (count_outcome draw skipped m s (trial_eligible daily_groups) k)),
        (k + length (trial_eligible daily_groups))%nat).
Proof.
  intros Hne. unfold UpwardCondition.sim_body, bind.
  rewrite cond_day_loop_counts. cbn [Nat.add].
  unfold lift.
  rewrite true_div_pos by (destruct daily_groups; [congruence | cbn; lia]).
  reflexivity.
Qed.

Lemma cond_sim_body_no_days (m : Q) (s : float64)
    (st : list Q * UpwardCondition.Counters) (k : nat) :
  UpwardCondition.sim_body draw [] m s st k = Raise ZeroDivisionError.
Proof. destruct st. reflexivity. Qed.

Lemma cond_sim_loop_pooled (daily_groups : DayGroups) (m : Q) (s : float64)
    (sims : nat) (results : list Q) (c : UpwardCondition.Counters) (k : nat) :
  daily_groups <> [] ->
  UpwardCondition.sim_loop draw daily_groups m s sims (results, c) k
  = Ok ((results ++ run_percentages draw m s daily_groups sims k,
         add_outcomes c
           (pooled_outcome draw good m s daily_groups sims k)
           (pooled_outcome draw bad m s daily_groups sims k)
           (pooled_outcome draw skipped m s daily_groups sims k)),
        (k + sims * length (trial_eligible daily_groups))%nat).
Proof.
  intros Hne. revert results c k.
  induction sims as [|sims IH]; intros results c k.
  - cbn. unfold ret. rewrite app_nil_r, add_outcomes_zero.
    f_equal. f_equal. lia.
  - cbn [UpwardCondition.sim_loop run_percentages pooled_outcome]. unfold bind.
    rewrite cond_sim_body_percentage by exact Hne. rewrite IH.
    rewrite <- app_assoc, add_outcomes_assoc. cbn [app].
    f_equal. f_equal. lia.
Qed.

End UpwardConditionFacts.

(** ** Day partitioning *)

Lemma insert_key_In (d x : Z) (ks : list Z) :
  In x (insert_key d ks) <-> x = d \/ In x ks.
Proof.
  induction ks as [|k ks IH]; cbn.
  - intuition.
  - destruct (d <? k)%Z eqn:E1; [cbn; intuition|].
    destruct (d =? k)%Z eqn:E2.
    + apply Z.eqb_eq in E2. subst. cbn. intuition.
    + cbn. rewrite IH. intuition.
Qed.

Lemma group_keys_In (x : Z) (dates : list Z) :
  In x (group_keys dates) <-> In x dates.
Proof.
  unfold group_keys. induction dates as [|d dates IH]; cbn.
  - tauto.
  - rewrite insert_key_In, IH. intuition.
Qed.

Lemma insert_key_sorted (d : Z) (ks : list Z) :
  StronglySorted Z.lt ks -> StronglySorted Z.lt (insert_key d ks).
Proof.
  induction 1 as [|k ks Hs IH Hk]; cbn.
  - repeat constructor.
  - destruct (d <? k)%Z eqn:E1.
    + apply Z.ltb_lt in E1. constructor; [constructor; assumption|].
      constructor; [assumption|].
      eapply Forall_impl; [|exact Hk]. cbn. intros; lia.
    + destruct (d =? k)%Z eqn:E2; [constructor; assumption|].
      apply Z.ltb_ge in E1. apply Z.eqb_neq in E2.
      constructor; [exact IH|].
      apply Forall_forall. intros x Hx. apply insert_key_In in Hx.
      destruct Hx as [->|Hx]; [lia|].
      rewrite Forall_forall in Hk. apply Hk. exact Hx.
Qed.

Lemma group_keys_sorted (dates : list Z) : StronglySorted Z.lt (group_keys dates).
Proof.
  unfold group_keys. induction dates as [|d dates IH]; cbn.
  - constructor.
  - apply insert_key_sorted. exact IH.
Qed.

Lemma sorted_lt_NoDup (l : list Z) : StronglySorted Z.lt l -> NoDup l.
Proof.
  induction 1 as [|x l Hs IH Hx]; constructor; [|exact IH].
  intros Hin. rewrite Forall_forall in Hx. specialize (Hx _ Hin). lia.
Qed.

Lemma filter_other_day (b : Bar) (l : DataFrame) (ks : list Z) :
  ~ In (date_of (timestamp b)) ks ->
  map (fun d => filter (fun x => (date_of (timestamp x) =? d)%Z) (b :: l)) ks
  = map (fun d => filter (fun x => (date_of (timestamp x) =? d)%Z) l) ks.
Proof.
  intros Hn. apply map_ext_in. intros d Hd. cbn.
  destruct (date_of (timestamp b) =? d)%Z eqn:E; [|reflexivity].
  apply Z.eqb_eq in E. subst. contradiction.
Qed.

Lemma filter_absent_day (d : Z) (l : DataFrame) :
  ~ In d (index_date l) ->
  filter (fun x => (date_of (timestamp x) =? d)%Z) l = [].
Proof.
  unfold index_date. induction l as [|b l IH]; cbn; [reflexivity|].
  intros Hn. destruct (date_of (timestamp b) =? d)%Z eqn:E.
  - apply Z.eqb_eq in E. tauto.
  - apply IH. tauto.
Qed.

(** On rows ordered by day, the groups laid end to end are the rows. *)
Lemma concat_groups_sorted (l : DataFrame) :
  date_sorted l ->
  concat (map (fun d => filter (fun x => (date_of (timestamp x) =? d)%Z) l)
              (group_keys (index_date l))) = l.
Proof.
  induction 1 as [|b l Hs IH Hb]; [reflexivity|].
  change (index_date (b :: l)) with (date_of (timestamp b) :: index_date l).
  change (group_keys (date_of (timestamp b) :: index_date l))
    with (insert_key (date_of (timestamp b)) (group_keys (index_date l))).
  pose proof (group_keys_sorted (index_date l)) as Hks.
  assert (Hge : Forall (fun k => (date_of (timestamp b) <= k)%Z)
                       (group_keys (index_date l))).
  { apply Forall_forall. intros k Hk. apply (proj1 (group_keys_In _ _)) in Hk.
    unfold index_date in Hk. apply in_map_iff in Hk.
    destruct Hk as [x [<- Hx]]. rewrite Forall_forall in Hb. apply Hb, Hx. }
  set (d := date_of (timestamp b)) in *.
  destruct (group_keys (index_date l)) as [|k ks] eqn:Ek.
  - assert (l = []) as ->.
    { destruct l as [|x l']; [reflexivity|].
      assert (In (date_of (timestamp x)) (group_keys (index_date (x :: l'))))
        by (apply group_keys_In; left; reflexivity).
      rewrite Ek in H. contradiction. }
    cbn. fold d. rewrite Z.eqb_refl. reflexivity.
  - inversion Hks as [|? ? Hks' Hk]; subst. inversion Hge as [|? ? Hdk Hge']; subst.
    rewrite map_cons, concat_cons in IH.
    cbn [insert_key]. destruct (d <? k)%Z eqn:E1.
    + apply Z.ltb_lt in E1.
      assert (Hnot : ~ In d (k :: ks)).
      { intros [->|Hin]; [lia|]. rewrite Forall_forall in Hk.
        specialize (Hk _ Hin). lia. }
      rewrite map_cons, concat_cons.
      rewrite (filter_other_day b l (k :: ks) Hnot).
      rewrite map_cons, concat_cons, IH.
      cbn [filter]. fold d. rewrite Z.eqb_refl.
      rewrite filter_absent_day
        by (rewrite <- group_keys_In, Ek; exact Hnot).
      reflexivity.
    + assert (d = k) as Hd.
      { apply Z.ltb_ge in E1. lia. }
      rewrite <- Hd in *. rewrite Z.eqb_refl.
      assert (Hnot : ~ In d ks).
      { intros Hin. rewrite Forall_forall in Hk. specialize (Hk _ Hin). lia. }
      rewrite map_cons, concat_cons.
      rewrite (filter_other_day b l ks Hnot).
      cbn [filter]. fold d. rewrite Z.eqb_refl. cbn [app]. f_equal.
      exact IH.
Qed.

Lemma assign_Date_bars (data : DataFrame) :
  map bar_of (assign_Date data) = map bar_of data.
Proof.
  unfold assign_Date. rewrite map_map. apply map_ext. intros b. reflexivity.
Qed.

Lemma assign_Date_timestamps (data : DataFrame) :
  map timestamp (assign_Date data) = map timestamp data.
Proof.
  unfold assign_Date. rewrite map_map. apply map_ext. intros b. reflexivity.
Qed.

Lemma date_of_mono (a b : Z) : (a <= b)%Z -> (date_of a <= date_of b)%Z.
Proof. intros H. unfold date_of. apply Z.div_le_mono; lia. Qed.

Lemma increasing_date_sorted (data : DataFrame) :
  StronglySorted Z.lt (map timestamp data) -> date_sorted data.
Proof.
  unfold date_sorted. induction data as [|b data IH]; cbn; intros H.
  - constructor.
  - inversion H as [|? ? Hs Hb]; subst. constructor; [apply IH, Hs|].
    apply Forall_forall. intros x Hx. rewrite Forall_forall in Hb.
    apply date_of_mono. apply Z.lt_le_incl, Hb. apply in_map. exact Hx.
Qed.

(** ** The dispersion statistic *)

Lemma inject_nat_succ (n : nat) :
  inject_Z (Z.of_nat (S n)) == inject_Z (Z.of_nat n) + 1.
Proof. rewrite Nat2Z.inj_succ. unfold Z.succ. rewrite inject_Z_plus. reflexivity. Qed.

Lemma inject_nat_succ_nonzero (n : nat) : ~ inject_Z (Z.of_nat (S n)) == 0.
Proof. unfold Qeq. cbn -[Z.of_nat]. lia. Qed.

(** Squared deviations from any centre [c], summed. *)
Lemma Qsum_sq_dev (c : Q) (xs : list Q) :
  Qsum (map (fun x => (x - c) * (x - c)) xs)
  == Qsum (map (fun x => x * x) xs) - 2 * c * Qsum xs
     + inject_Z (Z.of_nat (length xs)) * c * c.
Proof.
  induction xs as [|x xs IH].
  - cbn. ring.
  - cbn [map Qsum fold_right length]. fold (Qsum xs).
    fold (Qsum (map (fun x => (x - c) * (x - c)) xs)).
    fold (Qsum (map (fun x => x * x) xs)).
    rewrite IH, inject_nat_succ. ring.
Qed.

(** numpy's variance is [mean(x^2) - mean(x)^2]. *)
Lemma np_var_population (xs : list Q) : np_var xs == variance_spec xs.
Proof.
  unfold np_var, variance_spec, Qmean. rewrite length_map, length_map.
  destruct xs as [|x xs]; [reflexivity|].
  rewrite Qsum_sq_dev.
  set (n := inject_Z (Z.of_nat (length (x :: xs)))).
  assert (Hn : ~ n == 0) by apply inject_nat_succ_nonzero.
  field. exact Hn.
Qed.

Section Dispersion.

Variable sqrt : Q -> Q.

Lemma np_std_population (xs : list Q) :
  np_std sqrt xs = match xs with
                   | [] => NaN
                   | _ :: _ => Fin (sqrt (Qred (variance_spec xs)))
                   end.
Proof.
  destruct xs as [|x xs]; [reflexivity|]. unfold np_std.
  f_equal. f_equal. apply Qred_complete. apply np_var_population.
Qed.

End Dispersion.

Lemma extend_loop_concat (days : list DataFrame) (init : list Q) :
  fold_left (fun all_prices day_data => all_prices ++ close_values day_data) days init
  = init ++ concat (map close_values days).
Proof.
  revert init. induction days as [|d days IH]; intros init; cbn.
  - rewrite app_nil_r. reflexivity.
  - rewrite IH, app_assoc. reflexivity.
Qed.

Lemma all_prices_pooled (daily_groups : DayGroups) :
  ExchangeRate.all_prices daily_groups
  = concat (map close_values (values daily_groups)).
Proof. unfold ExchangeRate.all_prices. apply extend_loop_concat. Qed.

Lemma cond_all_prices_pooled (daily_groups : DayGroups) :
  UpwardCondition.all_prices daily_groups
  = concat (map close_values (values daily_groups)).
Proof. unfold UpwardCondition.all_prices. apply extend_loop_concat. Qed.

(** ** Raising the multiplier *)

Lemma threshold_raised (reference_price p m1 m2 : Q) (s : float64) :
  m1 <= m2 -> nonneg s ->
  fgtb (Fin p) (threshold_at reference_price m2 s) = true ->
  fgtb (Fin p) (threshold_at reference_price m1 s) = true.
Proof.
  intros Hm Hs. destruct s as [|q]; [discriminate|].
  cbn in *. rewrite !Qlt_bool_iff. intros H.
  eapply Qle_lt_trans; [|exact H].
  apply Qplus_le_compat; [apply Qle_refl|].
  apply Qmult_le_compat_r; assumption.
Qed.

Lemma crossedb_raised (closes : list Q) (r : nat) (m1 m2 : Q) (s : float64) :
  m1 <= m2 -> nonneg s ->
  crossedb closes r m2 s = true -> crossedb closes r m1 s = true.
Proof.
  intros Hm Hs. unfold crossedb.
  destruct (nth_error closes r) as [ref|]; [|discriminate].
  rewrite !existsb_exists. intros [i [Hi Hp]]. exists i. split; [exact Hi|].
  destruct (nth_error closes i) as [p|]; [|discriminate].
  eapply threshold_raised; eassumption.
Qed.

Section Raising.

Variable draw : nat -> nat.

Lemma count_crossed_raised (m1 m2 : Q) (s : float64) (eligible : list (list Q))
    (k : nat) :
  m1 <= m2 -> nonneg s ->
  (count_crossed draw m2 s eligible k <= count_crossed draw m1 s eligible k)%nat.
Proof.
  intros Hm Hs. revert k. induction eligible as [|closes rest IH]; intros k; cbn.
  - lia.
  - specialize (IH (S k)).
    pose proof (crossedb_raised closes (ref_index draw closes k) m1 m2 s Hm Hs) as Hc.
    destruct (crossedb closes (ref_index draw closes k) m2 s);
      [rewrite Hc by reflexivity|]; unfold tick;
      try destruct (crossedb closes (ref_index draw closes k) m1 s); lia.
Qed.

Lemma percentage_mono (c1 c2 total : nat) :
  (c2 <= c1)%nat -> percentage c2 total <= percentage c1 total.
Proof.
  intros H. unfold percentage. apply Qmult_le_compat_r; [|discriminate].
  unfold Qle. cbn -[Z.of_nat]. apply Z.mul_le_mono_nonneg_r; lia.
Qed.

Lemma run_percentages_raised (m1 m2 : Q) (s : float64) (daily_groups : DayGroups)
    (sims k : nat) :
  m1 <= m2 -> nonneg s ->
  Forall2 Qle (run_percentages draw m2 s daily_groups sims k)
              (run_percentages draw m1 s daily_groups sims k).
Proof.
  intros Hm Hs. revert k. induction sims as [|sims IH]; intros k; cbn.
  - constructor.
  - constructor; [|apply IH].
    apply percentage_mono. apply count_crossed_raised; assumption.
Qed.

End Raising.

Lemma Qsum_mono (xs ys : list Q) : Forall2 Qle xs ys -> Qsum xs <= Qsum ys.
Proof.
  induction 1 as [|x y xs ys Hxy H IH]; cbn.
  - apply Qle_refl.
  - apply Qplus_le_compat; assumption.
Qed.

Lemma Qmean_mono (xs ys : list Q) : Forall2 Qle xs ys -> Qmean xs <= Qmean ys.
Proof.
  intros H. unfold Qmean. rewrite (Forall2_length H).
  unfold Qdiv. apply Qmult_le_compat_r; [apply Qsum_mono, H|].
  apply Qinv_le_0_compat. unfold Qle. cbn -[Z.of_nat]. lia.
Qed.

(** ** The trial *)

(** C1.  For a day of [n >= 2] bars, the index [r] drawn by
    [randint(0, n // 2)] lies in the first half, and the trial counts the
    day as crossed exactly when some bar at an index in [r+1 .. n-1] closes
    strictly above [close(Bar[r]) + multiplier * dispersion]; the offset is
    added to the reference price. *)
Theorem trial_crossed_iff (draw : nat -> nat) (multiplier : Q)
    (dispersion : float64) (day_data : DataFrame) (count k r k' : nat) :
  (2 <= length day_data)%nat ->
  randint draw 0 (length day_data / 2) k = Ok (r, k') ->
  (r < length day_data / 2)%nat /\
  exists count',
    ExchangeRate.day_body draw multiplier dispersion day_data count k
      = Ok (count', k') /\
    (count' = (count + 1)%nat \/ count' = count) /\
    (count' = (count + 1)%nat <->
     exists reference_price i p,
       nth_error (close_values day_data) r = Some reference_price /\
       (r + 1 <= i <= length day_data - 1)%nat /\
       nth_error (close_values day_data) i = Some p /\
       fgt (Fin p) (fadd (Fin reference_price) (fmul (Fin multiplier) dispersion))).
Proof.
  intros Hn Hdraw.
  rewrite randint_from_zero in Hdraw by (apply half_pos; exact Hn).
  injection Hdraw as Hr Hk. subst k'.
  assert (Hlen : length (close_values day_data) = length day_data)
    by (unfold close_values; apply length_map).
  assert (Hri : r = ref_index draw (close_values day_data) k)
    by (unfold ref_index; rewrite Hlen; symmetry; exact Hr).
  split.
  - rewrite <- Hr. apply Nat.mod_upper_bound.
    pose proof (half_pos _ Hn). lia.
  - rewrite day_body_eligible by exact Hn. rewrite <- Hri.
    eexists. split; [reflexivity|].
    pose proof (crossedb_crosses (close_values day_data) r multiplier dispersion) as Hc.
    unfold crosses, threshold_at in Hc. rewrite Hlen in Hc.
    destruct (crossedb (close_values day_data) r multiplier dispersion); cbn [tick].
    + split; [left; reflexivity|]. split; [intros _; apply Hc; reflexivity|reflexivity].
    + split; [right; lia|]. split; [lia|].
      intros H. apply Hc in H. discriminate.
Qed.

Lemma trial_crossed_iff_witness :
  (0 < length five_bar_day / 2)%nat /\
  exists count',
    ExchangeRate.day_body draw_zero 0 (Fin 0) five_bar_day 0%nat 0%nat = Ok (count', 1%nat) /\
    (count' = 1%nat \/ count' = 0%nat) /\
    (count' = 1%nat <->
     exists reference_price i p,
       nth_error (close_values five_bar_day) 0%nat = Some reference_price /\
       (1 <= i <= 4)%nat /\
       nth_error (close_values five_bar_day) i = Some p /\
       fgt (Fin p) (fadd (Fin reference_price) (fmul (Fin 0) (Fin 0)))).
Proof.
  apply (trial_crossed_iff draw_zero 0 (Fin 0) five_bar_day 0%nat 0%nat 0%nat 1%nat).
  - cbn. lia.
  - reflexivity.
Defined.

(** ** The run percentage *)

Lemma percentage_value (count total : nat) :
  (0 < total)%nat ->
  percentage count total
  == 100 * inject_Z (Z.of_nat count) / inject_Z (Z.of_nat total).
Proof.
  intros H. unfold percentage. rewrite Qmake_Qdiv.
  replace (Z.pos (Pos.of_nat total)) with (Z.of_nat total) by lia.
  assert (~ inject_Z (Z.of_nat total) == 0)
    by (unfold Qeq; cbn -[Z.of_nat]; lia).
  field. assumption.
Qed.

Lemma count_crossed_le (draw : nat -> nat) (m : Q) (s : float64)
    (eligible : list (list Q)) (k : nat) :
  (count_crossed draw m s eligible k <= length eligible)%nat.
Proof.
  revert k. induction eligible as [|closes rest IH]; intros k; cbn; [lia|].
  specialize (IH (S k)).
  destruct (crossedb closes (ref_index draw closes k) m s); cbn [tick]; lia.
Qed.

Lemma trial_eligible_le (daily_groups : DayGroups) :
  (length (trial_eligible daily_groups) <= length daily_groups)%nat.
Proof.
  unfold trial_eligible, values.
  etransitivity; [apply filter_length_le|].
  rewrite !length_map. lia.
Qed.

(** C2 (as the code has it).  In both variants the run percentage is
    100 times the count of days classified crossed divided by the count of
    all days of the DayGroups.  Days with fewer than two bars add nothing to
    the numerator and take no draw, but they are counted in the
    denominator. *)
Theorem run_percentage_over_all_days (draw : nat -> nat)
    (daily_groups : DayGroups) (multiplier : Q) (dispersion : float64)
    (results : list Q) (c : UpwardCondition.Counters) (k : nat) :
  daily_groups <> [] ->
  let eligible := trial_eligible daily_groups in
  let crossed := count_crossed draw multiplier dispersion eligible k in
  exists pct,
    pct == 100 * inject_Z (Z.of_nat crossed)
           / inject_Z (Z.of_nat (length daily_groups)) /\
    ExchangeRate.sim_body draw daily_groups multiplier dispersion results k
      = Ok (results ++ [pct], (k + length eligible)%nat) /\
    (exists c',
       UpwardCondition.sim_body draw daily_groups multiplier dispersion (results, c) k
       = Ok ((results ++ [pct], c'), (k + length eligible)%nat)) /\
    (crossed <= length eligible <= length daily_groups)%nat.
Proof.
  intros Hne eligible crossed.
  exists (percentage crossed (length daily_groups)).
  split; [|split; [|split]].
  - apply percentage_value. destruct daily_groups; [congruence | cbn; lia].
  - apply sim_body_percentage. exact Hne.
  - eexists. apply cond_sim_body_percentage. exact Hne.
  - split; [apply count_crossed_le | apply trial_eligible_le].
Qed.

Lemma run_percentage_over_all_days_witness :
  exists pct,
    pct == 100 * inject_Z 1 / inject_Z 2 /\
    ExchangeRate.sim_body draw_zero two_days (1 # 100) (Fin 6) [] 0%nat
      = Ok ([pct], 1%nat) /\
    (exists c',
       UpwardCondition.sim_body draw_zero two_days (1 # 100) (Fin 6)
         ([], UpwardCondition.mkCounters 0 0 0) 0%nat
       = Ok (([pct], c'), 1%nat)) /\
    (1 <= 1 <= 2)%nat.
Proof.
  apply (run_percentage_over_all_days draw_zero two_days (1 # 100) (Fin 6) []
           (UpwardCondition.mkCounters 0 0 0) 0%nat).
  discriminate.
Defined.

(** C2 as stated fails: with one two-bar day that crosses and one
    single-bar day, the run percentage is 50, not 100 * 1 / 1. *)
Lemma run_percentage_spec_fails :
  ExchangeRate.sim_body draw_zero two_days (1 # 100) (Fin 6) [] 0%nat
    = Ok ([percentage 1 2], 1%nat) /\
  count_crossed draw_zero (1 # 100) (Fin 6) (trial_eligible two_days) 0%nat = 1%nat /\
  length (trial_eligible two_days) = 1%nat /\
  percentage 1 2 == 50 /\
  run_percentage_spec 1 1 == 100 /\
  ~ percentage 1 2 == run_percentage_spec 1 1.
Proof.
  repeat split; try reflexivity. intros H. vm_compute in H. discriminate.
Qed.

(** ** An empty series *)

(** C3 (as the code has it).  A loaded Series with zero bars makes the run
    fail at the loading step, with the exception ["No data downloaded"]
    that [main] raises again; day partitioning is not reached.  The
    partitioning step itself raises nothing on an empty Series and returns
    an empty DayGroups, on which the statistics then divide by zero. *)
Theorem empty_series_fails_at_loader (sqrt : Q -> Q) (draw : nat -> nat)
    (multiplier : Q) (sims k : nat) :
  ExchangeRate.download_forex_data [] = Raise (Exception "No data downloaded") /\
  ExchangeRate.main sqrt draw [] k = Raise (Exception "No data downloaded") /\
  UpwardCondition.main sqrt draw [] k = Raise (Exception "No data downloaded") /\
  ExchangeRate.group_by_trading_day [] = ([], []) /\
  UpwardCondition.group_by_trading_day [] = ([], []) /\
  ExchangeRate.calculate_threshold_crossing sqrt draw [] multiplier (S sims) k
    = Raise ZeroDivisionError /\
  UpwardCondition.calculate_threshold_crossing sqrt draw [] multiplier sims k
    = Raise ZeroDivisionError.
Proof.
  repeat split; try reflexivity.
  destruct sims; reflexivity.
Qed.

(** C3 as stated fails: on the empty Series the partitioning step returns
    normally where the spec's partitioner raises [EmptySeriesError], and the
    run as a whole ends with another exception, raised by the loader. *)
Lemma empty_series_no_partition_error :
  ExchangeRate.group_by_trading_day [] = ([], []) /\
  partition_spec [] = Raise (Exception "EmptySeriesError") /\
  Ok (ExchangeRate.group_by_trading_day []) <> partition_spec [] /\
  ExchangeRate.main sqrt6 draw_zero [] 0%nat <> Raise (Exception "EmptySeriesError").
Proof.
  repeat split; try reflexivity; discriminate.
Qed.

(** ** The conditional classification *)

Lemma trial_eligible_two_bars (daily_groups : DayGroups) :
  Forall (fun closes => (2 <= length closes)%nat) (trial_eligible daily_groups).
Proof.
  unfold trial_eligible. apply Forall_forall. intros closes H.
  apply filter_In in H. destruct H as [_ H]. apply Nat.leb_le. exact H.
Qed.

Lemma outcome_cases (above crossed : bool) (P C : Prop) :
  (above = true <-> P) -> (crossed = true <-> C) ->
  let o := if above then skipped else if crossed then good else bad in
  (o = skipped <-> P) /\ (o = good <-> ~ P /\ C) /\ (o = bad <-> ~ P /\ ~ C).
Proof.
  intros Ha Hc. destruct above, crossed; cbn;
    repeat split; intros; try discriminate; try reflexivity;
    intuition (try discriminate; auto).
Qed.

Section Classification.

Variable draw : nat -> nat.

Lemma classify_defined (closes : list Q) (k : nat) (m : Q) (s : float64) :
  (2 <= length closes)%nat ->
  exists reference_price start_day_price,
    nth_error closes (ref_index draw closes k) = Some reference_price /\
    nth_error closes 0 = Some start_day_price /\
    classify closes (ref_index draw closes k) m s
    = Some (if Qlt_bool start_day_price reference_price then skipped
            else if crossedb closes (ref_index draw closes k) m s then good
            else bad).
Proof.
  intros Hn.
  destruct (ref_index_in_range draw closes k Hn) as [ref Href].
  destruct (nth_error closes 0) as [start|] eqn:Hstart;
    [|apply nth_error_None in Hstart; lia].
  exists ref, start. unfold classify. rewrite Href, Hstart.
  repeat split.
  destruct (Qlt_bool start ref); [reflexivity|].
  destruct (crossedb closes (ref_index draw closes k) m s); reflexivity.
Qed.

Lemma outcome_tick_one (o : Outcome) :
  (outcome_tick good (Some o) + outcome_tick bad (Some o)
   + outcome_tick skipped (Some o) = 1)%nat.
Proof. destruct o; reflexivity. Qed.

Lemma count_outcome_all (m : Q) (s : float64) (eligible : list (list Q)) (k : nat) :
  Forall (fun closes => (2 <= length closes)%nat) eligible ->
  (count_outcome draw good m s eligible k + count_outcome draw bad m s eligible k
   + count_outcome draw skipped m s eligible k = length eligible)%nat.
Proof.
  intros H. revert k. induction H as [|closes rest Hc Hrest IH]; intros k.
  - reflexivity.
  - cbn [count_outcome length]. specialize (IH (S k)).
    destruct (classify_defined closes k m s Hc) as [ref [start [_ [_ Hcl]]]].
    rewrite Hcl.
    pose proof (outcome_tick_one
                  (if Qlt_bool start ref then skipped
                   else if crossedb closes (ref_index draw closes k) m s then good
                   else bad)).
    lia.
Qed.

End Classification.

(** C4.  In the conditional variant a day of two bars or more ticks exactly
    one of the three counters: skipped exactly when the reference price is
    above the close of Bar[0]; otherwise good when the day crosses and bad
    when it does not.  Over one run the three counters together grow by the
    number of trial-eligible days. *)
Theorem conditional_classification (draw : nat -> nat) (multiplier : Q)
    (dispersion : float64) (day_data : DataFrame) (daily_groups : DayGroups)
    (count : nat) (c : UpwardCondition.Counters) (k : nat) :
  (2 <= length day_data)%nat ->
  (let closes := close_values day_data in
   let r := ref_index draw closes k in
   exists reference_price start_day_price count' o,
     nth_error closes r = Some reference_price /\
     nth_error closes 0 = Some start_day_price /\
     UpwardCondition.day_body draw multiplier dispersion day_data (count, c) k
     = Ok ((count',
            add_outcomes c (outcome_tick good (Some o)) (outcome_tick bad (Some o))
                           (outcome_tick skipped (Some o))),
           S k) /\
     (o = skipped <-> start_day_price < reference_price) /\
     (o = good <-> ~ start_day_price < reference_price
                   /\ crosses closes r multiplier dispersion) /\
     (o = bad <-> ~ start_day_price < reference_price
                  /\ ~ crosses closes r multiplier dispersion)) /\
  (exists count' c',
     UpwardCondition.day_loop draw multiplier dispersion daily_groups (count, c) k
     = Ok ((count', c'), (k + length (trial_eligible daily_groups))%nat) /\
     counted c' = (counted c + length (trial_eligible daily_groups))%nat).
Proof.
  intros Hn. split.
  - intros closes r. subst closes r.
    assert (Hlen : (2 <= length (close_values day_data))%nat)
      by (unfold close_values; rewrite length_map; exact Hn).
    destruct (classify_defined draw (close_values day_data) k multiplier dispersion Hlen)
      as [ref [start [Href [Hstart Hcl]]]].
    exists ref, start. eexists. eexists.
    split; [exact Href|]. split; [exact Hstart|].
    split.
    + rewrite cond_day_body_eligible by exact Hn. cbv zeta. rewrite Hcl. reflexivity.
    + apply outcome_cases;
        [apply Qlt_bool_iff | apply crossedb_crosses].
  - eexists. eexists. split; [apply cond_day_loop_counts|].
    unfold counted, add_outcomes. cbn.
    pose proof (count_outcome_all draw multiplier dispersion
                  (trial_eligible daily_groups) k
                  (trial_eligible_two_bars daily_groups)).
    lia.
Qed.

Lemma conditional_classification_witness :
  (let closes := close_values five_bar_day in
   let r := ref_index draw_one closes 0 in
   exists reference_price start_day_price count' o,
     nth_error closes r = Some reference_price /\
     nth_error closes 0 = Some start_day_price /\
     UpwardCondition.day_body draw_one (1 # 100) (Fin 6) five_bar_day
       (0%nat, UpwardCondition.mkCounters 0 0 0) 0%nat
     = Ok ((count',
            add_outcomes (UpwardCondition.mkCounters 0 0 0)
              (outcome_tick good (Some o)) (outcome_tick bad (Some o))
              (outcome_tick skipped (Some o))),
           1%nat) /\
     (o = skipped <-> start_day_price < reference_price) /\
     (o = good <-> ~ start_day_price < reference_price
                   /\ crosses closes r (1 # 100) (Fin 6)) /\
     (o = bad <-> ~ start_day_price < reference_price
                  /\ ~ crosses closes r (1 # 100) (Fin 6))) /\
  (exists count' c',
     UpwardCondition.day_loop draw_one (1 # 100) (Fin 6) two_days
       (0%nat, UpwardCondition.mkCounters 0 0 0) 0%nat
     = Ok ((count', c'), (0 + length (trial_eligible two_days))%nat) /\
     counted c'
     = (counted (UpwardCondition.mkCounters 0 0 0)
        + length (trial_eligible two_days))%nat).
Proof.
  apply (conditional_classification draw_one (1 # 100) (Fin 6) five_bar_day
           two_days 0%nat (UpwardCondition.mkCounters 0 0 0) 0%nat).
  cbn. lia.
Defined.

(** ** The pooled estimate *)

Lemma pooled_outcome_no_days (draw : nat -> nat) (o : Outcome) (m : Q)
    (s : float64) (sims k : nat) :
  pooled_outcome draw o m s [] sims k = 0%nat.
Proof.
  revert k. induction sims as [|sims IH]; intros k; cbn; [reflexivity|].
  apply IH.
Qed.

Lemma all_prices_same (daily_groups : DayGroups) :
  UpwardCondition.all_prices daily_groups = ExchangeRate.all_prices daily_groups.
Proof. reflexivity. Qed.

(** C5.  The conditional variant returns [100 * good_total / (good_total +
    bad_total)] with both totals pooled over all runs and days, and prints
    next to it the mean of the unconditional per-run percentages, the value
    the unconditional variant returns on the same draws. *)
Theorem pooled_good_percentage (sqrt : Q -> Q) (draw : nat -> nat)
    (daily_groups : DayGroups) (multiplier : Q) (sims k : nat) :
  let dispersion := np_std sqrt (UpwardCondition.all_prices daily_groups) in
  let good_total := pooled_outcome draw good multiplier dispersion daily_groups sims k in
  let bad_total := pooled_outcome draw bad multiplier dispersion daily_groups sims k in
  (0 < good_total + bad_total)%nat ->
  exists good_pct line k',
    UpwardCondition.calculate_threshold_crossing sqrt draw daily_groups multiplier sims k
      = Ok (((good_pct, dispersion), line), k') /\
    good_pct == good_pct_spec good_total bad_total /\
    UpwardCondition.printed_good line = good_total /\
    UpwardCondition.printed_bad line = bad_total /\
    UpwardCondition.printed_pct line = good_pct /\
    UpwardCondition.printed_pct_for_all line
      = np_mean (run_percentages draw multiplier dispersion daily_groups sims k) /\
    ExchangeRate.calculate_threshold_crossing sqrt draw daily_groups multiplier sims k
      = Ok ((UpwardCondition.printed_pct_for_all line, dispersion), k').
Proof.
  intros dispersion good_total bad_total Hpos.
  assert (Hne : daily_groups <> []).
  { intros ->. subst good_total bad_total.
    rewrite !pooled_outcome_no_days in Hpos. lia. }
  unfold UpwardCondition.calculate_threshold_crossing,
    ExchangeRate.calculate_threshold_crossing, bind.
  change (ExchangeRate.all_prices daily_groups)
    with (UpwardCondition.all_prices daily_groups).
  fold dispersion.
  rewrite cond_sim_loop_pooled by exact Hne.
  rewrite sim_loop_percentages by exact Hne.
  cbn [app add_outcomes UpwardCondition.good_trade_count
       UpwardCondition.bad_trade_count UpwardCondition.no_action_count Nat.add].
  fold good_total bad_total. unfold lift.
  rewrite true_div_pos by exact Hpos.
  eexists. eexists. eexists. split; [reflexivity|].
  cbn [UpwardCondition.printed_good UpwardCondition.printed_bad
       UpwardCondition.printed_pct UpwardCondition.printed_pct_for_all].
  repeat split.
  fold (percentage good_total (good_total + bad_total)).
  unfold good_pct_spec. apply percentage_value. exact Hpos.
Qed.

Lemma pooled_good_percentage_witness :
  exists good_pct line k',
    UpwardCondition.calculate_threshold_crossing sqrt6 draw_zero two_days
        (1 # 100) 3 0%nat
      = Ok (((good_pct, np_std sqrt6 (UpwardCondition.all_prices two_days)), line), k') /\
    good_pct == good_pct_spec 3 0 /\
    UpwardCondition.printed_good line = 3%nat /\
    UpwardCondition.printed_bad line = 0%nat /\
    UpwardCondition.printed_pct line = good_pct /\
    UpwardCondition.printed_pct_for_all line
      = np_mean (run_percentages draw_zero (1 # 100)
                   (np_std sqrt6 (UpwardCondition.all_prices two_days))
                   two_days 3 0) /\
    ExchangeRate.calculate_threshold_crossing sqrt6 draw_zero two_days (1 # 100) 3 0%nat
      = Ok ((UpwardCondition.printed_pct_for_all line,
             np_std sqrt6 (UpwardCondition.all_prices two_days)), k').
Proof.
  apply (pooled_good_percentage sqrt6 draw_zero two_days (1 # 100) 3 0).
  vm_compute. lia.
Defined.

(** ** The unguarded division *)

(** C9.  The final division of the conditional variant is unguarded: when
    no day of any run is classified good or bad,
    [calculate_threshold_crossing] raises [ZeroDivisionError]. *)
Theorem good_pct_division_unguarded (sqrt : Q -> Q) (draw : nat -> nat)
    (daily_groups : DayGroups) (multiplier : Q) (sims k : nat) :
  let dispersion := np_std sqrt (UpwardCondition.all_prices daily_groups) in
  (pooled_outcome draw good multiplier dispersion daily_groups sims k
   + pooled_outcome draw bad multiplier dispersion daily_groups sims k = 0)%nat ->
  UpwardCondition.calculate_threshold_crossing sqrt draw daily_groups multiplier sims k
  = Raise ZeroDivisionError.
Proof.
  intros dispersion Hzero.
  unfold UpwardCondition.calculate_threshold_crossing, bind. fold dispersion.
  destruct daily_groups as [|d rest].
  - destruct sims; reflexivity.
  - rewrite cond_sim_loop_pooled by discriminate.
    cbn [add_outcomes UpwardCondition.good_trade_count
         UpwardCondition.bad_trade_count Nat.add].
    rewrite Hzero.
    assert (Hg : pooled_outcome draw good multiplier dispersion (d :: rest) sims k = 0%nat)
      by lia.
    rewrite Hg. reflexivity.
Qed.

(** Single-bar days only, and a day whose drawn reference price is above
    its first close in every run. *)
Lemma good_pct_division_unguarded_witness :
  UpwardCondition.calculate_threshold_crossing sqrt6 draw_zero thin_days (1 # 100) 100 0%nat
    = Raise ZeroDivisionError /\
  UpwardCondition.calculate_threshold_crossing sqrt6 draw_one peak_day (1 # 100) 100 0%nat
    = Raise ZeroDivisionError.
Proof.
  split.
  - apply (good_pct_division_unguarded sqrt6 draw_zero thin_days (1 # 100) 100 0).
    vm_compute. reflexivity.
  - apply (good_pct_division_unguarded sqrt6 draw_one peak_day (1 # 100) 100 0).
    vm_compute. reflexivity.
Defined.

(** ** Partitioning is lossless *)

Lemma groups_of_key (data : DataFrame) (d : Z) (g : DataFrame) :
  In (d, g) (groupby_index_date data) ->
  In d (index_date data) /\
  g = filter (fun b => (date_of (timestamp b) =? d)%Z) data.
Proof.
  unfold groupby_index_date. intros H. apply in_map_iff in H.
  destruct H as [d' [Heq Hin]]. injection Heq as -> <-.
  split; [|reflexivity]. apply group_keys_In. exact Hin.
Qed.

Lemma groups_keys (data : DataFrame) :
  map fst (groupby_index_date data) = group_keys (index_date data).
Proof.
  unfold groupby_index_date. rewrite map_map. cbn. apply map_id.
Qed.

Lemma groups_concat (data : DataFrame) :
  concat (map snd (groupby_index_date data))
  = concat (map (fun d => filter (fun x => (date_of (timestamp x) =? d)%Z) data)
                (group_keys (index_date data))).
Proof. unfold groupby_index_date. rewrite map_map. reflexivity. Qed.

(** C6.  For a Series of at least one bar with strictly increasing
    timestamps, the DayGroups are a lossless partition: the TradingDays, in
    date order, laid end to end are the bar sequence; every bar is in
    exactly one TradingDay, once; and every TradingDay is non-empty and
    holds the bars of its date in the order received. *)
Theorem partition_lossless (data : DataFrame) :
  data <> [] ->
  StronglySorted Z.lt (map timestamp data) ->
  let table := fst (ExchangeRate.group_by_trading_day data) in
  let daily_groups := snd (ExchangeRate.group_by_trading_day data) in
  concat (values daily_groups) = table /\
  map bar_of (concat (values daily_groups)) = map bar_of data /\
  StronglySorted Z.lt (map fst daily_groups) /\
  NoDup (concat (values daily_groups)) /\
  (forall b, In b table ->
     exists d g, In (d, g) daily_groups /\ In b g /\
       forall d' g', In (d', g') daily_groups -> In b g' -> d' = d /\ g' = g) /\
  (forall d g, In (d, g) daily_groups ->
     g <> [] /\ g = filter (fun b => (date_of (timestamp b) =? d)%Z) table).
Proof.
  intros Hne Hinc table daily_groups.
  unfold ExchangeRate.group_by_trading_day in table, daily_groups.
  cbn [fst snd] in table, daily_groups. subst table daily_groups.
  assert (Hts : StronglySorted Z.lt (map timestamp (assign_Date data)))
    by (rewrite assign_Date_timestamps; exact Hinc).
  assert (Hcat : concat (values (groupby_index_date (assign_Date data)))
                 = assign_Date data).
  { unfold values. rewrite groups_concat.
    apply concat_groups_sorted, increasing_date_sorted, Hts. }
  assert (Hmem : forall d g, In (d, g) (groupby_index_date (assign_Date data)) ->
                 forall b, In b g <-> In b (assign_Date data)
                                      /\ date_of (timestamp b) = d).
  { intros d g Hin b. apply groups_of_key in Hin. destruct Hin as [_ ->].
    rewrite filter_In, Z.eqb_eq. reflexivity. }
  split; [exact Hcat|]. split; [rewrite Hcat; apply assign_Date_bars|].
  split; [rewrite groups_keys; apply group_keys_sorted|].
  split.
  { rewrite Hcat. apply (NoDup_map_inv timestamp). apply sorted_lt_NoDup, Hts. }
  split.
  - intros b Hb.
    exists (date_of (timestamp b)),
           (filter (fun x => (date_of (timestamp x) =? date_of (timestamp b))%Z)
                   (assign_Date data)).
    split.
    + unfold groupby_index_date. apply in_map_iff.
      exists (date_of (timestamp b)). split; [reflexivity|].
      apply group_keys_In. unfold index_date.
      apply (in_map (fun x => date_of (timestamp x))). exact Hb.
    + split.
      * apply filter_In. split; [exact Hb | apply Z.eqb_refl].
      * intros d' g' Hin Hbg. pose proof (Hmem d' g' Hin b) as Hm.
        apply Hm in Hbg. destruct Hbg as [_ Hd]. subst d'.
        split; [reflexivity|]. apply groups_of_key in Hin. apply Hin.
  - intros d g Hin. apply groups_of_key in Hin. destruct Hin as [Hd Hg].
    split; [|exact Hg].
    unfold index_date in Hd. apply in_map_iff in Hd. destruct Hd as [x [Hx Hxin]].
    assert (Hxg : In x g) by (rewrite Hg; apply filter_In; split;
                              [exact Hxin | apply Z.eqb_eq; exact Hx]).
    intros ->. contradiction.
Qed.

Lemma partition_lossless_witness :
  let table := fst (ExchangeRate.group_by_trading_day sample_series) in
  let daily_groups := snd (ExchangeRate.group_by_trading_day sample_series) in
  concat (values daily_groups) = table /\
  map bar_of (concat (values daily_groups)) = map bar_of sample_series /\
  StronglySorted Z.lt (map fst daily_groups) /\
  NoDup (concat (values daily_groups)) /\
  (forall b, In b table ->
     exists d g, In (d, g) daily_groups /\ In b g /\
       forall d' g', In (d', g') daily_groups -> In b g' -> d' = d /\ g' = g) /\
  (forall d g, In (d, g) daily_groups ->
     g <> [] /\ g = filter (fun b => (date_of (timestamp b) =? d)%Z) table).
Proof.
  apply (partition_lossless sample_series).
  - discriminate.
  - cbn. repeat constructor.
Defined.

(** ** Partitioning writes to its argument *)

(** C10.  [group_by_trading_day] assigns the derived ['Date'] column on the
    table it is given, in both scripts: a loaded table, which has no such
    column, is not left as it was, while its rows, index and other columns
    are unchanged. *)
Theorem partition_adds_Date_column (data : DataFrame) :
  data <> [] ->
  Forall (fun b => Date b = None) data ->
  let table := fst (ExchangeRate.group_by_trading_day data) in
  table <> data /\
  map Date table = map (fun b => Some (date_of (timestamp b))) data /\
  map bar_of table = map bar_of data /\
  length table = length data /\
  fst (UpwardCondition.group_by_trading_day data) = table.
Proof.
  intros Hne Hnone table. subst table.
  unfold ExchangeRate.group_by_trading_day, UpwardCondition.group_by_trading_day.
  cbn [fst].
  split.
  - destruct data as [|b data]; [congruence|].
    inversion Hnone as [|? ? Hb _]; subst.
    cbn. intros Heq. injection Heq as Heq _.
    rewrite <- Heq in Hb. discriminate.
  - split; [unfold assign_Date; rewrite map_map; reflexivity|].
    split; [apply assign_Date_bars|].
    split; [unfold assign_Date; apply length_map | reflexivity].
Qed.

Lemma partition_adds_Date_column_witness :
  let table := fst (ExchangeRate.group_by_trading_day sample_series) in
  table <> sample_series /\
  map Date table = map (fun b => Some (date_of (timestamp b))) sample_series /\
  map bar_of table = map bar_of sample_series /\
  length table = length sample_series /\
  fst (UpwardCondition.group_by_trading_day sample_series) = table.
Proof.
  apply (partition_adds_Date_column sample_series).
  - discriminate.
  - repeat constructor.
Defined.

(** ** The dispersion statistic is the pooled population deviation *)

(** C7.  The dispersion statistic is the population standard deviation of
    the closes of every bar of every TradingDay, pooled as one sample: the
    root of [mean(x^2) - mean(x)^2], with denominator [N].  It is the same
    whatever the multiplier, the number of runs and the draws. *)
Theorem dispersion_population_std (sqrt : Q -> Q) (draw : nat -> nat)
    (daily_groups : DayGroups) (multiplier : Q) (sims k : nat) :
  daily_groups <> [] ->
  let pooled := concat (map close_values (values daily_groups)) in
  let dispersion :=
    match pooled with
    | [] => NaN
    | _ :: _ => Fin (sqrt (Qred (variance_spec pooled)))
    end in
  variance_spec pooled * inject_Z (Z.of_nat (length pooled))
    == Qsum (map (fun x => (x - Qmean pooled) * (x - Qmean pooled)) pooled) /\
  (exists crossed_mean,
     ExchangeRate.calculate_threshold_crossing sqrt draw daily_groups multiplier sims k
     = Ok ((crossed_mean, dispersion),
           (k + sims * length (trial_eligible daily_groups))%nat)) /\
  (UpwardCondition.calculate_threshold_crossing sqrt draw daily_groups multiplier sims k
     = Raise ZeroDivisionError \/
   exists good_pct line,
     UpwardCondition.calculate_threshold_crossing sqrt draw daily_groups multiplier sims k
     = Ok (((good_pct, dispersion), line),
           (k + sims * length (trial_eligible daily_groups))%nat)).
Proof.
  intros Hne pooled dispersion.
  assert (Hd : np_std sqrt (ExchangeRate.all_prices daily_groups) = dispersion).
  { rewrite all_prices_pooled. fold pooled. apply np_std_population. }
  split; [|split].
  - rewrite <- np_var_population. unfold np_var.
    set (devs := map (fun x => (x - Qmean pooled) * (x - Qmean pooled)) pooled).
    unfold Qmean at 1. subst devs. rewrite length_map.
    destruct pooled as [|x xs]; [reflexivity|].
    field. apply inject_nat_succ_nonzero.
  - unfold ExchangeRate.calculate_threshold_crossing, bind.
    rewrite Hd, sim_loop_percentages by exact Hne.
    eexists. reflexivity.
  - unfold UpwardCondition.calculate_threshold_crossing, bind.
    change (UpwardCondition.all_prices daily_groups)
      with (ExchangeRate.all_prices daily_groups).
    rewrite Hd, cond_sim_loop_pooled by exact Hne.
    unfold lift.
    match goal with
    | |- context [true_div ?a ?b] => destruct (true_div a b) eqn:E
    end.
    + right. eexists. eexists. reflexivity.
    + left. unfold true_div in E.
      match type of E with
      | match ?n with _ => _ end = _ => destruct n; [|discriminate]
      end.
      injection E as <-. reflexivity.
Qed.

Lemma dispersion_population_std_witness :
  let pooled := concat (map close_values (values two_days)) in
  let dispersion :=
    match pooled with
    | [] => NaN
    | _ :: _ => Fin (sqrt6 (Qred (variance_spec pooled)))
    end in
  variance_spec pooled * inject_Z (Z.of_nat (length pooled))
    == Qsum (map (fun x => (x - Qmean pooled) * (x - Qmean pooled)) pooled) /\
  (exists crossed_mean,
     ExchangeRate.calculate_threshold_crossing sqrt6 draw_zero two_days (1 # 100) 2 0%nat
     = Ok ((crossed_mean, dispersion),
           (0 + 2 * length (trial_eligible two_days))%nat)) /\
  (UpwardCondition.calculate_threshold_crossing sqrt6 draw_zero two_days (1 # 100) 2 0%nat
     = Raise ZeroDivisionError \/
   exists good_pct line,
     UpwardCondition.calculate_threshold_crossing sqrt6 draw_zero two_days (1 # 100) 2 0%nat
     = Ok (((good_pct, dispersion), line),
           (0 + 2 * length (trial_eligible two_days))%nat)).
Proof.
  apply (dispersion_population_std sqrt6 draw_zero two_days (1 # 100) 2 0).
  discriminate.
Defined.

(** ** Raising the multiplier lowers the estimate *)

(** C8.  With the day data, a non-negative dispersion statistic and the
    draws held fixed, a larger multiplier gives per-run crossing
    percentages that are no larger, run by run, and a mean crossing
    estimate that is no larger. *)
Theorem crossing_estimate_antitone (sqrt : Q -> Q) (draw : nat -> nat)
    (daily_groups : DayGroups) (m1 m2 : Q) (sims k : nat) :
  daily_groups <> [] ->
  (0 < sims)%nat ->
  m1 <= m2 ->
  nonneg (np_std sqrt (ExchangeRate.all_prices daily_groups)) ->
  let dispersion := np_std sqrt (ExchangeRate.all_prices daily_groups) in
  exists results1 results2 mean1 mean2 k',
    ExchangeRate.sim_loop draw daily_groups m1 dispersion sims [] k
      = Ok (results1, k') /\
    ExchangeRate.sim_loop draw daily_groups m2 dispersion sims [] k
      = Ok (results2, k') /\
    Forall2 Qle results2 results1 /\
    ExchangeRate.calculate_threshold_crossing sqrt draw daily_groups m1 sims k
      = Ok ((Fin mean1, dispersion), k') /\
    ExchangeRate.calculate_threshold_crossing sqrt draw daily_groups m2 sims k
      = Ok ((Fin mean2, dispersion), k') /\
    mean2 <= mean1.
Proof.
  intros Hne Hsims Hm Hs dispersion.
  pose proof (run_percentages_raised draw m1 m2 dispersion daily_groups sims k Hm Hs)
    as Hall.
  exists (run_percentages draw m1 dispersion daily_groups sims k),
         (run_percentages draw m2 dispersion daily_groups sims k),
         (Qmean (run_percentages draw m1 dispersion daily_groups sims k)),
         (Qmean (run_percentages draw m2 dispersion daily_groups sims k)),
         (k + sims * length (trial_eligible daily_groups))%nat.
  unfold ExchangeRate.calculate_threshold_crossing, bind. fold dispersion.
  rewrite !sim_loop_percentages by exact Hne. cbn [app].
  assert (Hmean : forall m,
             np_mean (run_percentages draw m dispersion daily_groups sims k)
             = Fin (Qmean (run_percentages draw m dispersion daily_groups sims k))).
  { intros m. destruct sims as [|n]; [lia|]. reflexivity. }
  rewrite !Hmean.
  repeat split; try reflexivity; [exact Hall | apply Qmean_mono, Hall].
Qed.

Lemma crossing_estimate_antitone_witness :
  let dispersion := np_std sqrt6 (ExchangeRate.all_prices two_days) in
  exists results1 results2 mean1 mean2 k',
    ExchangeRate.sim_loop draw_zero two_days (1 # 100) dispersion 2 [] 0%nat
      = Ok (results1, k') /\
    ExchangeRate.sim_loop draw_zero two_days 2 dispersion 2 [] 0%nat
      = Ok (results2, k') /\
    Forall2 Qle results2 results1 /\
    ExchangeRate.calculate_threshold_crossing sqrt6 draw_zero two_days (1 # 100) 2 0%nat
      = Ok ((Fin mean1, dispersion), k') /\
    ExchangeRate.calculate_threshold_crossing sqrt6 draw_zero two_days 2 2 0%nat
      = Ok ((Fin mean2, dispersion), k') /\
    mean2 <= mean1.
Proof.
  apply (crossing_estimate_antitone sqrt6 draw_zero two_days (1 # 100) 2 2 0).
  - discriminate.
  - lia.
  - vm_compute. discriminate.
  - vm_compute. discriminate.
Defined.

(** * Further properties of the scripts *)

(** ** Percentages and means stay between 0 and 100 *)

Lemma percentage_bounds (count total : nat) :
  (count <= total)%nat -> (0 < total)%nat ->
  0 <= percentage count total <= 100.
Proof.
  intros Hc Ht. split.
  - apply Qle_trans with (percentage 0 total).
    + unfold percentage, Qle. cbn. lia.
    + apply percentage_mono. lia.
  - apply Qle_trans with (percentage total total).
    + apply percentage_mono. exact Hc.
    + rewrite percentage_value by exact Ht.
      assert (~ inject_Z (Z.of_nat total) == 0)
        by (unfold Qeq; cbn -[Z.of_nat]; lia).
      apply Qle_lteq. right. field. assumption.
Qed.

Lemma Qsum_bounds (a b : Q) (xs : list Q) :
  Forall (fun x => a <= x <= b) xs ->
  inject_Z (Z.of_nat (length xs)) * a <= Qsum xs
  /\ Qsum xs <= inject_Z (Z.of_nat (length xs)) * b.
Proof.
  induction 1 as [|x xs [Hax Hxb] H [IHa IHb]].
  - cbn. split; apply Qle_lteq; right; ring.
  - cbn [length Qsum fold_right]. fold (Qsum xs). split.
    + apply Qle_trans with (a + inject_Z (Z.of_nat (length xs)) * a).
      * apply Qle_lteq. right. rewrite inject_nat_succ. ring.
      * apply Qplus_le_compat; assumption.
    + apply Qle_trans with (b + inject_Z (Z.of_nat (length xs)) * b).
      * apply Qplus_le_compat; assumption.
      * apply Qle_lteq. right. rewrite inject_nat_succ. ring.
Qed.

Lemma Qmean_bounds (a b : Q) (xs : list Q) :
  xs <> [] ->
  Forall (fun x => a <= x <= b) xs ->
  a <= Qmean xs <= b.
Proof.
  intros Hne H. destruct (Qsum_bounds a b xs H) as [Ha Hb].
  assert (Hpos : 0 < inject_Z (Z.of_nat (length xs))).
  { destruct xs; [congruence|]. unfold Qlt. cbn -[Z.of_nat]. cbn [length]. lia. }
  unfold Qmean. split.
  - apply Qle_shift_div_l; [exact Hpos|]. rewrite Qmult_comm. exact Ha.
  - apply Qle_shift_div_r; [exact Hpos|]. rewrite Qmult_comm. exact Hb.
Qed.

Lemma run_percentages_bounds (draw : nat -> nat) (m : Q) (s : float64)
    (daily_groups : DayGroups) (sims k : nat) :
  daily_groups <> [] ->
  Forall (fun x => 0 <= x <= 100) (run_percentages draw m s daily_groups sims k).
Proof.
  intros Hne. revert k. induction sims as [|sims IH]; intros k; cbn.
  - constructor.
  - constructor; [|apply IH].
    apply percentage_bounds.
    + etransitivity; [apply count_crossed_le | apply trial_eligible_le].
    + destruct daily_groups; [congruence | cbn; lia].
Qed.

Lemma run_percentages_nonempty (draw : nat -> nat) (m : Q) (s : float64)
    (daily_groups : DayGroups) (sims k : nat) :
  (0 < sims)%nat -> run_percentages draw m s daily_groups sims k <> [].
Proof. destruct sims; [lia | discriminate]. Qed.

(** X1.  The mean crossing estimate of the unconditional script is a percentage:
    on a non-empty DayGroups and at least one run it is returned, finite,
    and lies between 0 and 100. *)
Theorem crossed_mean_in_range (sqrt : Q -> Q) (draw : nat -> nat)
    (daily_groups : DayGroups) (multiplier : Q) (sims k : nat) :
  daily_groups <> [] ->
  (0 < sims)%nat ->
  exists crossed_mean dispersion k',
    ExchangeRate.calculate_threshold_crossing sqrt draw daily_groups multiplier sims k
      = Ok ((Fin crossed_mean, dispersion), k') /\
    0 <= crossed_mean <= 100.
Proof.
  intros Hne Hsims.
  unfold ExchangeRate.calculate_threshold_crossing, bind.
  rewrite sim_loop_percentages by exact Hne. cbn [app].
  set (sd := np_std sqrt (ExchangeRate.all_prices daily_groups)).
  exists (Qmean (run_percentages draw multiplier sd daily_groups sims k)), sd.
  eexists. split.
  - unfold ret. destruct sims; [lia|]. reflexivity.
  - apply Qmean_bounds.
    + apply run_percentages_nonempty. exact Hsims.
    + apply run_percentages_bounds. exact Hne.
Qed.

Lemma crossed_mean_in_range_witness :
  exists crossed_mean dispersion k',
    ExchangeRate.calculate_threshold_crossing sqrt6 draw_zero two_days (1 # 100) 2 0%nat
      = Ok ((Fin crossed_mean, dispersion), k') /\
    0 <= crossed_mean <= 100.
Proof.
  apply (crossed_mean_in_range sqrt6 draw_zero two_days (1 # 100) 2 0).
  - discriminate.
  - lia.
Defined.

(** What the conditional [calculate_threshold_crossing] yields on a
    non-empty DayGroups, in terms of the pooled tallies. *)
Lemma cond_calculate_value (sqrt : Q -> Q) (draw : nat -> nat)
    (daily_groups : DayGroups) (m : Q) (sims k : nat) :
  daily_groups <> [] ->
  let sd := np_std sqrt (UpwardCondition.all_prices daily_groups) in
  let g := pooled_outcome draw good m sd daily_groups sims k in
  let b := pooled_outcome draw bad m sd daily_groups sims k in
  let n := pooled_outcome draw skipped m sd daily_groups sims k in
  UpwardCondition.calculate_threshold_crossing sqrt draw daily_groups m sims k
  = match (g + b)%nat with
    | O => Raise ZeroDivisionError
    | S _ =>
        Ok (((percentage g (g + b), sd),
             UpwardCondition.mkDoneLine g b n (percentage g (g + b))
               (np_mean (run_percentages draw m sd daily_groups sims k))),
            (k + sims * length (trial_eligible daily_groups))%nat)
    end.
Proof.
  intros Hne sd g b n.
  unfold UpwardCondition.calculate_threshold_crossing, bind. fold sd.
  rewrite cond_sim_loop_pooled by exact Hne.
  cbn [app add_outcomes UpwardCondition.good_trade_count
       UpwardCondition.bad_trade_count UpwardCondition.no_action_count Nat.add].
  fold g b n. unfold lift, true_div.
  destruct (g + b)%nat; reflexivity.
Qed.

Lemma cond_calculate_no_days (sqrt : Q -> Q) (draw : nat -> nat) (m : Q)
    (sims k : nat) :
  UpwardCondition.calculate_threshold_crossing sqrt draw [] m sims k
  = Raise ZeroDivisionError.
Proof. destruct sims; reflexivity. Qed.

(** X2.  The pooled estimate of the conditional script is a percentage whenever
    it is returned. *)
Theorem good_pct_in_range (sqrt : Q -> Q) (draw : nat -> nat)
    (daily_groups : DayGroups) (multiplier : Q) (sims k : nat)
    (good_pct : Q) (dispersion : float64) (line : UpwardCondition.DoneLine)
    (k' : nat) :
  UpwardCondition.calculate_threshold_crossing sqrt draw daily_groups multiplier sims k
    = Ok (((good_pct, dispersion), line), k') ->
  0 <= good_pct <= 100.
Proof.
  intros Hok. destruct daily_groups as [|d rest].
  - rewrite cond_calculate_no_days in Hok. discriminate.
  - rewrite cond_calculate_value in Hok by discriminate. cbv zeta in Hok.
    match type of Hok with
    | match ?t with _ => _ end = _ => destruct t eqn:E; [discriminate|]
    end.
    injection Hok as <- _ _ _. rewrite <- E.
    apply percentage_bounds; lia.
Qed.

Lemma good_pct_in_range_witness :
  0 <= 300 # 3 <= 100.
Proof.
  apply (good_pct_in_range sqrt6 draw_zero two_days (1 # 100) 3 0 (300 # 3)
           (np_std sqrt6 (UpwardCondition.all_prices two_days))
           (UpwardCondition.mkDoneLine 3 0 0 (300 # 3) (Fin (1200 # 24))) 3).
  vm_compute. reflexivity.
Defined.

(** ** Which draws a result depends on *)

Section Locality.

Variables draw1 draw2 : nat -> nat.

Lemma count_crossed_local (m : Q) (s : float64) (eligible : list (list Q)) (k : nat) :
  (forall j, (k <= j < k + length eligible)%nat -> draw1 j = draw2 j) ->
  count_crossed draw1 m s eligible k = count_crossed draw2 m s eligible k.
Proof.
  revert k. induction eligible as [|closes rest IH]; intros k H; cbn; [reflexivity|].
  unfold ref_index. rewrite (H k) by (cbn; lia).
  rewrite IH; [reflexivity|]. intros j Hj. apply H. cbn. lia.
Qed.

Lemma count_outcome_local (o : Outcome) (m : Q) (s : float64)
    (eligible : list (list Q)) (k : nat) :
  (forall j, (k <= j < k + length eligible)%nat -> draw1 j = draw2 j) ->
  count_outcome draw1 o m s eligible k = count_outcome draw2 o m s eligible k.
Proof.
  revert k. induction eligible as [|closes rest IH]; intros k H; cbn; [reflexivity|].
  unfold ref_index. rewrite (H k) by (cbn; lia).
  rewrite IH; [reflexivity|]. intros j Hj. apply H. cbn. lia.
Qed.

Lemma run_percentages_local (m : Q) (s : float64) (daily_groups : DayGroups)
    (sims k : nat) :
  (forall j, (k <= j < k + sims * length (trial_eligible daily_groups))%nat ->
             draw1 j = draw2 j) ->
  run_percentages draw1 m s daily_groups sims k
  = run_percentages draw2 m s daily_groups sims k.
Proof.
  revert k. induction sims as [|sims IH]; intros k H; cbn; [reflexivity|].
  rewrite count_crossed_local by (intros j Hj; apply H; cbn; lia).
  rewrite IH; [reflexivity|]. intros j Hj. apply H. cbn. lia.
Qed.

Lemma pooled_outcome_local (o : Outcome) (m : Q) (s : float64)
    (daily_groups : DayGroups) (sims k : nat) :
  (forall j, (k <= j < k + sims * length (trial_eligible daily_groups))%nat ->
             draw1 j = draw2 j) ->
  pooled_outcome draw1 o m s daily_groups sims k
  = pooled_outcome draw2 o m s daily_groups sims k.
Proof.
  revert k. induction sims as [|sims IH]; intros k H; cbn; [reflexivity|].
  rewrite count_outcome_local by (intros j Hj; apply H; cbn; lia).
  rewrite IH; [reflexivity|]. intros j Hj. apply H. cbn. lia.
Qed.

End Locality.

Lemma calculate_no_days (sqrt : Q -> Q) (draw : nat -> nat) (m : Q) (sims k : nat) :
  ExchangeRate.calculate_threshold_crossing sqrt draw [] m sims k
  = match sims with
    | O => Ok ((NaN, NaN), k)
    | S _ => Raise ZeroDivisionError
    end.
Proof. destruct sims; reflexivity. Qed.

Lemma calculate_value (sqrt : Q -> Q) (draw : nat -> nat)
    (daily_groups : DayGroups) (m : Q) (sims k : nat) :
  daily_groups <> [] ->
  let sd := np_std sqrt (ExchangeRate.all_prices daily_groups) in
  ExchangeRate.calculate_threshold_crossing sqrt draw daily_groups m sims k
  = Ok ((np_mean (run_percentages draw m sd daily_groups sims k), sd),
        (k + sims * length (trial_eligible daily_groups))%nat).
Proof.
  intros Hne sd. unfold ExchangeRate.calculate_threshold_crossing, bind. fold sd.
  rewrite sim_loop_percentages by exact Hne. reflexivity.
Qed.

(** X3.  A call of [calculate_threshold_crossing] that starts at position [k] of
    the generator's stream reads the [sims * E] positions from [k] on, [E]
    the number of days of two bars or more, and nothing else: two streams
    that agree there give the same result, in both scripts. *)
Theorem result_reads_its_window (sqrt : Q -> Q) (draw1 draw2 : nat -> nat)
    (daily_groups : DayGroups) (multiplier : Q) (sims k : nat) :
  (forall j, (k <= j < k + sims * length (trial_eligible daily_groups))%nat ->
             draw1 j = draw2 j) ->
  ExchangeRate.calculate_threshold_crossing sqrt draw1 daily_groups multiplier sims k
  = ExchangeRate.calculate_threshold_crossing sqrt draw2 daily_groups multiplier sims k
  /\
  UpwardCondition.calculate_threshold_crossing sqrt draw1 daily_groups multiplier sims k
  = UpwardCondition.calculate_threshold_crossing sqrt draw2 daily_groups multiplier sims k.
Proof.
  intros H. destruct daily_groups as [|d rest].
  - rewrite !calculate_no_days, !cond_calculate_no_days. split; reflexivity.
  - rewrite !calculate_value, !cond_calculate_value by discriminate. cbv zeta.
    rewrite !(run_percentages_local draw1 draw2) by exact H.
    rewrite !(pooled_outcome_local draw1 draw2) by exact H.
    split; reflexivity.
Qed.

Lemma result_reads_its_window_witness :
  ExchangeRate.calculate_threshold_crossing sqrt6 draw_zero two_days (1 # 100) 2 0%nat
  = ExchangeRate.calculate_threshold_crossing sqrt6 draw_zero_then_one two_days
      (1 # 100) 2 0%nat
  /\
  UpwardCondition.calculate_threshold_crossing sqrt6 draw_zero two_days (1 # 100) 2 0%nat
  = UpwardCondition.calculate_threshold_crossing sqrt6 draw_zero_then_one two_days
      (1 # 100) 2 0%nat.
Proof.
  apply (result_reads_its_window sqrt6 draw_zero draw_zero_then_one two_days
           (1 # 100) 2 0).
  intros j Hj. cbn in Hj. destruct j as [|[|j]]; [reflexivity | reflexivity | lia].
Defined.

(** ** Days of two or three bars *)

Lemma ref_index_short (draw : nat -> nat) (closes : list Q) (k : nat) :
  (2 <= length closes <= 3)%nat -> ref_index draw closes k = 0%nat.
Proof.
  intros H. unfold ref_index.
  assert (length closes / 2 = 1)%nat as ->.
  { destruct closes as [|a [|b [|c [|e rest]]]]; cbn in *; try lia; reflexivity. }
  apply Nat.mod_1_r.
Qed.

Lemma trial_eligible_short (daily_groups : DayGroups) :
  Forall (fun item => (length (snd item) <= 3)%nat) daily_groups ->
  Forall (fun closes => (2 <= length closes <= 3)%nat) (trial_eligible daily_groups).
Proof.
  intros H. unfold trial_eligible, values. apply Forall_forall. intros closes Hin.
  apply filter_In in Hin. destruct Hin as [Hin Hlen]. apply Nat.leb_le in Hlen.
  apply in_map_iff in Hin. destruct Hin as [d [<- Hd]].
  apply in_map_iff in Hd. destruct Hd as [item [<- Hitem]].
  rewrite Forall_forall in H. specialize (H _ Hitem). cbn beta in H.
  assert (Hl : length (close_values (snd item)) = length (snd item))
    by (unfold close_values; apply length_map).
  rewrite Hl in Hlen |- *. split; [exact Hlen | exact H].
Qed.

Section ShortDays.

Variables draw1 draw2 : nat -> nat.

Lemma count_crossed_short (m : Q) (s : float64) (eligible : list (list Q))
    (k1 k2 : nat) :
  Forall (fun closes => (2 <= length closes <= 3)%nat) eligible ->
  count_crossed draw1 m s eligible k1 = count_crossed draw2 m s eligible k2.
Proof.
  intros H. revert k1 k2. induction H as [|closes rest Hc Hrest IH]; intros k1 k2.
  - reflexivity.
  - cbn. rewrite !ref_index_short by exact Hc. rewrite (IH (S k1) (S k2)).
    reflexivity.
Qed.

Lemma count_outcome_short (o : Outcome) (m : Q) (s : float64)
    (eligible : list (list Q)) (k1 k2 : nat) :
  Forall (fun closes => (2 <= length closes <= 3)%nat) eligible ->
  count_outcome draw1 o m s eligible k1 = count_outcome draw2 o m s eligible k2.
Proof.
  intros H. revert k1 k2. induction H as [|closes rest Hc Hrest IH]; intros k1 k2.
  - reflexivity.
  - cbn. rewrite !ref_index_short by exact Hc. rewrite (IH (S k1) (S k2)).
    reflexivity.
Qed.

Lemma run_percentages_short (m : Q) (s : float64) (daily_groups : DayGroups)
    (sims k : nat) :
  Forall (fun item => (length (snd item) <= 3)%nat) daily_groups ->
  run_percentages draw1 m s daily_groups sims k
  = run_percentages draw2 m s daily_groups sims k.
Proof.
  intros H. revert k. induction sims as [|sims IH]; intros k; cbn; [reflexivity|].
  rewrite (count_crossed_short m s _ k k) by (apply trial_eligible_short, H).
  rewrite IH. reflexivity.
Qed.

Lemma pooled_outcome_short (o : Outcome) (m : Q) (s : float64)
    (daily_groups : DayGroups) (sims k : nat) :
  Forall (fun item => (length (snd item) <= 3)%nat) daily_groups ->
  pooled_outcome draw1 o m s daily_groups sims k
  = pooled_outcome draw2 o m s daily_groups sims k.
Proof.
  intros H. revert k. induction sims as [|sims IH]; intros k; cbn; [reflexivity|].
  rewrite (count_outcome_short o m s _ k k) by (apply trial_eligible_short, H).
  rewrite IH. reflexivity.
Qed.

End ShortDays.

(** X4.  When no day has more than three bars the first half of every day is
    its first bar alone, so the reference index is always 0 and the result
    of [calculate_threshold_crossing] is the same for every generator, in
    both scripts. *)
Theorem short_days_need_no_randomness (sqrt : Q -> Q) (draw1 draw2 : nat -> nat)
    (daily_groups : DayGroups) (multiplier : Q) (sims k : nat) :
  Forall (fun item => (length (snd item) <= 3)%nat) daily_groups ->
  ExchangeRate.calculate_threshold_crossing sqrt draw1 daily_groups multiplier sims k
  = ExchangeRate.calculate_threshold_crossing sqrt draw2 daily_groups multiplier sims k
  /\
  UpwardCondition.calculate_threshold_crossing sqrt draw1 daily_groups multiplier sims k
  = UpwardCondition.calculate_threshold_crossing sqrt draw2 daily_groups multiplier sims k.
Proof.
  intros H. destruct daily_groups as [|d rest].
  - rewrite !calculate_no_days, !cond_calculate_no_days. split; reflexivity.
  - rewrite !calculate_value, !cond_calculate_value by discriminate. cbv zeta.
    rewrite !(run_percentages_short draw1 draw2) by exact H.
    rewrite !(pooled_outcome_short draw1 draw2) by exact H.
    split; reflexivity.
Qed.

Lemma short_days_need_no_randomness_witness :
  ExchangeRate.calculate_threshold_crossing sqrt6 draw_zero two_days (1 # 100) 5 0%nat
  = ExchangeRate.calculate_threshold_crossing sqrt6 draw_one two_days (1 # 100) 5 0%nat
  /\
  UpwardCondition.calculate_threshold_crossing sqrt6 draw_zero two_days (1 # 100) 5 0%nat
  = UpwardCondition.calculate_threshold_crossing sqrt6 draw_one two_days (1 # 100) 5 0%nat.
Proof.
  apply (short_days_need_no_randomness sqrt6 draw_zero draw_one two_days (1 # 100) 5 0).
  repeat constructor.
Defined.

(** ** How the tallies of the conditional script relate *)

Section Tallies.

Variable draw : nat -> nat.

Lemma day_tallies (closes : list Q) (k : nat) (m : Q) (s : float64) :
  (2 <= length closes)%nat ->
  let cl := classify closes (ref_index draw closes k) m s in
  let x := tick (crossedb closes (ref_index draw closes k) m s) in
  (outcome_tick good cl <= x <= outcome_tick good cl + outcome_tick skipped cl)%nat
  /\ (x + outcome_tick bad cl <= 1)%nat.
Proof.
  intros Hn. cbv zeta.
  destruct (classify_defined draw closes k m s Hn) as [ref [start [_ [_ Hcl]]]].
  rewrite Hcl.
  destruct (Qlt_bool start ref);
    destruct (crossedb closes (ref_index draw closes k) m s); cbn; lia.
Qed.

Lemma count_tallies (m : Q) (s : float64) (eligible : list (list Q)) (k : nat) :
  Forall (fun closes => (2 <= length closes)%nat) eligible ->
  (count_outcome draw good m s eligible k <= count_crossed draw m s eligible k
   <= count_outcome draw good m s eligible k
      + count_outcome draw skipped m s eligible k)%nat
  /\ (count_crossed draw m s eligible k + count_outcome draw bad m s eligible k
      <= length eligible)%nat.
Proof.
  intros H. revert k. induction H as [|closes rest Hc Hrest IH]; intros k.
  - cbn. lia.
  - cbn [count_outcome count_crossed length]. specialize (IH (S k)).
    pose proof (day_tallies closes k m s Hc) as Hd. cbv zeta in Hd. lia.
Qed.

Lemma skipped_any_multiplier (m1 m2 : Q) (s : float64) (eligible : list (list Q))
    (k : nat) :
  count_outcome draw skipped m1 s eligible k
  = count_outcome draw skipped m2 s eligible k.
Proof.
  revert k. induction eligible as [|closes rest IH]; intros k; cbn; [reflexivity|].
  rewrite (IH (S k)). f_equal. unfold classify.
  destruct (nth_error closes (ref_index draw closes k)); [|reflexivity].
  destruct (nth_error closes 0) as [start|]; [|reflexivity].
  destruct (Qlt_bool start q); [reflexivity|].
  destruct (crossedb closes (ref_index draw closes k) m1 s),
           (crossedb closes (ref_index draw closes k) m2 s); reflexivity.
Qed.

Lemma good_raised (m1 m2 : Q) (s : float64) (eligible : list (list Q)) (k : nat) :
  m1 <= m2 -> nonneg s ->
  (count_outcome draw good m2 s eligible k
   <= count_outcome draw good m1 s eligible k)%nat.
Proof.
  intros Hm Hs. revert k. induction eligible as [|closes rest IH]; intros k; cbn.
  - lia.
  - specialize (IH (S k)).
    pose proof (crossedb_raised closes (ref_index draw closes k) m1 m2 s Hm Hs) as Hc.
    unfold classify.
    destruct (nth_error closes (ref_index draw closes k)); [|cbn; lia].
    destruct (nth_error closes 0) as [start|]; [|cbn; lia].
    destruct (Qlt_bool start q); [cbn; lia|].
    destruct (crossedb closes (ref_index draw closes k) m2 s).
    + rewrite Hc by reflexivity. cbn. lia.
    + destruct (crossedb closes (ref_index draw closes k) m1 s); cbn; lia.
Qed.

Lemma pooled_skipped_any_multiplier (m1 m2 : Q) (s : float64)
    (daily_groups : DayGroups) (sims k : nat) :
  pooled_outcome draw skipped m1 s daily_groups sims k
  = pooled_outcome draw skipped m2 s daily_groups sims k.
Proof.
  revert k. induction sims as [|sims IH]; intros k; cbn; [reflexivity|].
  rewrite IH, (skipped_any_multiplier m1 m2). reflexivity.
Qed.

Lemma pooled_good_raised (m1 m2 : Q) (s : float64) (daily_groups : DayGroups)
    (sims k : nat) :
  m1 <= m2 -> nonneg s ->
  (pooled_outcome draw good m2 s daily_groups sims k
   <= pooled_outcome draw good m1 s daily_groups sims k)%nat.
Proof.
  intros Hm Hs. revert k. induction sims as [|sims IH]; intros k; cbn; [lia|].
  specialize (IH (k + length (trial_eligible daily_groups))%nat).
  pose proof (good_raised m1 m2 s (trial_eligible daily_groups) k Hm Hs). lia.
Qed.

Lemma pooled_outcome_all (m : Q) (s : float64) (daily_groups : DayGroups)
    (sims k : nat) :
  (pooled_outcome draw good m s daily_groups sims k
   + pooled_outcome draw bad m s daily_groups sims k
   + pooled_outcome draw skipped m s daily_groups sims k
   = sims * length (trial_eligible daily_groups))%nat.
Proof.
  revert k. induction sims as [|sims IH]; intros k; cbn; [reflexivity|].
  specialize (IH (k + length (trial_eligible daily_groups))%nat).
  pose proof (count_outcome_all draw m s (trial_eligible daily_groups) k
                (trial_eligible_two_bars daily_groups)).
  lia.
Qed.

End Tallies.

(** X5.  In one pass over the days of the conditional script every good day is
    also counted as crossed, every crossed day is good or skipped, and no
    bad day is counted as crossed. *)
Theorem good_days_are_crossed_days (draw : nat -> nat) (multiplier : Q)
    (dispersion : float64) (daily_groups : DayGroups) (count : nat)
    (c : UpwardCondition.Counters) (k : nat) :
  exists x g b n k',
    UpwardCondition.day_loop draw multiplier dispersion daily_groups (count, c) k
    = Ok (((count + x)%nat, add_outcomes c g b n), k') /\
    (g <= x <= g + n)%nat /\
    (x + b <= length (trial_eligible daily_groups))%nat /\
    (g + b + n = length (trial_eligible daily_groups))%nat.
Proof.
  rewrite cond_day_loop_counts.
  pose proof (count_tallies draw multiplier dispersion (trial_eligible daily_groups) k
                (trial_eligible_two_bars daily_groups)) as [H1 H2].
  pose proof (count_outcome_all draw multiplier dispersion (trial_eligible daily_groups)
                k (trial_eligible_two_bars daily_groups)) as H3.
  do 5 eexists. split; [reflexivity|]. split; [exact H1|]. split; [exact H2|exact H3].
Qed.

(** X6.  With the data, a non-negative dispersion and the draws held fixed, a
    larger multiplier leaves the number of skipped days and the number of
    traded days (good plus bad) as they are, and gives a pooled estimate of
    the conditional script that is no larger. *)
Theorem good_pct_antitone (sqrt : Q -> Q) (draw : nat -> nat)
    (daily_groups : DayGroups) (m1 m2 : Q) (sims k : nat) :
  let dispersion := np_std sqrt (UpwardCondition.all_prices daily_groups) in
  m1 <= m2 ->
  nonneg dispersion ->
  (0 < pooled_outcome draw good m1 dispersion daily_groups sims k
       + pooled_outcome draw bad m1 dispersion daily_groups sims k)%nat ->
  exists pct1 pct2 line1 line2 k',
    UpwardCondition.calculate_threshold_crossing sqrt draw daily_groups m1 sims k
      = Ok (((pct1, dispersion), line1), k') /\
    UpwardCondition.calculate_threshold_crossing sqrt draw daily_groups m2 sims k
      = Ok (((pct2, dispersion), line2), k') /\
    pct2 <= pct1 /\
    UpwardCondition.printed_skipped line2 = UpwardCondition.printed_skipped line1 /\
    (UpwardCondition.printed_good line2 + UpwardCondition.printed_bad line2
     = UpwardCondition.printed_good line1 + UpwardCondition.printed_bad line1)%nat.
Proof.
  intros sd Hm Hs Hpos.
  assert (Hne : daily_groups <> []).
  { intros ->. rewrite !pooled_outcome_no_days in Hpos. lia. }
  pose proof (pooled_outcome_all draw m1 sd daily_groups sims k) as Hall1.
  pose proof (pooled_outcome_all draw m2 sd daily_groups sims k) as Hall2.
  pose proof (pooled_skipped_any_multiplier draw m1 m2 sd daily_groups sims k) as Hsk.
  pose proof (pooled_good_raised draw m1 m2 sd daily_groups sims k Hm Hs) as Hgood.
  rewrite !cond_calculate_value by exact Hne. cbv zeta. fold sd.
  set (g1 := pooled_outcome draw good m1 sd daily_groups sims k) in *.
  set (b1 := pooled_outcome draw bad m1 sd daily_groups sims k) in *.
  set (n1 := pooled_outcome draw skipped m1 sd daily_groups sims k) in *.
  set (g2 := pooled_outcome draw good m2 sd daily_groups sims k) in *.
  set (b2 := pooled_outcome draw bad m2 sd daily_groups sims k) in *.
  set (n2 := pooled_outcome draw skipped m2 sd daily_groups sims k) in *.
  assert (Hsum : (g2 + b2 = g1 + b1)%nat) by lia.
  destruct (g1 + b1)%nat as [|d1] eqn:E1; [lia|].
  rewrite Hsum.
  do 5 eexists. split; [reflexivity|]. split; [reflexivity|].
  cbn [UpwardCondition.printed_skipped UpwardCondition.printed_good
       UpwardCondition.printed_bad].
  split; [apply percentage_mono; exact Hgood|]. split; lia.
Qed.

Lemma good_pct_antitone_witness :
  exists pct1 pct2 line1 line2 k',
    UpwardCondition.calculate_threshold_crossing sqrt6 draw_zero two_days (1 # 100) 3 0%nat
      = Ok (((pct1, np_std sqrt6 (UpwardCondition.all_prices two_days)), line1), k') /\
    UpwardCondition.calculate_threshold_crossing sqrt6 draw_zero two_days 2 3 0%nat
      = Ok (((pct2, np_std sqrt6 (UpwardCondition.all_prices two_days)), line2), k') /\
    pct2 <= pct1 /\
    UpwardCondition.printed_skipped line2 = UpwardCondition.printed_skipped line1 /\
    (UpwardCondition.printed_good line2 + UpwardCondition.printed_bad line2
     = UpwardCondition.printed_good line1 + UpwardCondition.printed_bad line1)%nat.
Proof.
  apply (good_pct_antitone sqrt6 draw_zero two_days (1 # 100) 2 3 0).
  - vm_compute. discriminate.
  - vm_compute. discriminate.
  - vm_compute. lia.
Defined.

(** ** Day partitioning of a series in any order *)

Lemma concat_no_rows (ks : list Z) :
  concat (map (fun d => filter (fun x : Bar => (date_of (timestamp x) =? d)%Z) []) ks)
  = [].
Proof. induction ks as [|k ks IH]; cbn; [reflexivity | exact IH]. Qed.

Lemma groups_permutation (l : DataFrame) (ks : list Z) :
  NoDup ks ->
  (forall b, In b l -> In (date_of (timestamp b)) ks) ->
  Permutation
    (concat (map (fun d => filter (fun x => (date_of (timestamp x) =? d)%Z) l) ks)) l.
Proof.
  intros Hnd. induction l as [|b l IH]; intros Hall.
  - rewrite concat_no_rows. constructor.
  - assert (Hin : In (date_of (timestamp b)) ks) by (apply Hall; left; reflexivity).
    apply in_split in Hin. destruct Hin as [k1 [k2 Hks]].
    assert (Hl : Permutation
                   (concat (map (fun d => filter (fun x => (date_of (timestamp x) =? d)%Z) l)
                                ks)) l)
      by (apply IH; intros x Hx; apply Hall; right; exact Hx).
    rewrite Hks in Hnd, Hl |- *.
    apply NoDup_remove_2 in Hnd.
    rewrite map_app, concat_app, map_cons, concat_cons in Hl |- *.
    rewrite (filter_other_day b l k1) by (intros Hx; apply Hnd, in_or_app; left; exact Hx).
    rewrite (filter_other_day b l k2) by (intros Hx; apply Hnd, in_or_app; right; exact Hx).
    cbn [filter]. rewrite Z.eqb_refl. cbn [app].
    apply Permutation_sym, Permutation_cons_app, Permutation_sym. exact Hl.
Qed.

Lemma assign_Date_cells (data : DataFrame) (b : Bar) :
  In b (assign_Date data) -> Date b = Some (date_of (timestamp b)).
Proof.
  unfold assign_Date. intros H. apply in_map_iff in H.
  destruct H as [x [<- _]]. reflexivity.
Qed.

(** X7.  Whatever the order of the rows, [group_by_trading_day] returns one group
    per calendar day, keys strictly ascending; each group is non-empty and
    holds rows of its day, each carrying that day in its ['Date'] cell; the
    groups together hold the rows of the table, each as often as the table
    does; and the dict is empty only for an empty table. *)
Theorem groups_of_any_series (data : DataFrame) :
  let table := fst (ExchangeRate.group_by_trading_day data) in
  let daily_groups := snd (ExchangeRate.group_by_trading_day data) in
  StronglySorted Z.lt (map fst daily_groups) /\
  (forall d g, In (d, g) daily_groups ->
     g <> [] /\
     Forall (fun b => date_of (timestamp b) = d /\ Date b = Some d) g) /\
  Permutation (concat (values daily_groups)) table /\
  (daily_groups = [] <-> data = []).
Proof.
  cbv zeta. unfold ExchangeRate.group_by_trading_day. cbn [fst snd].
  set (table := assign_Date data).
  split; [rewrite groups_keys; apply group_keys_sorted|].
  split; [|split].
  - intros d g Hin. apply groups_of_key in Hin. destruct Hin as [Hd Hg]. split.
    + unfold index_date in Hd. apply in_map_iff in Hd. destruct Hd as [x [Hx Hxin]].
      assert (Hxg : In x g)
        by (rewrite Hg; apply filter_In; split;
            [exact Hxin | apply Z.eqb_eq; exact Hx]).
      intros ->. contradiction.
    + apply Forall_forall. intros b Hb. rewrite Hg in Hb.
      apply filter_In in Hb. destruct Hb as [Hb Heq]. apply Z.eqb_eq in Heq.
      split; [exact Heq|]. rewrite <- Heq. apply (assign_Date_cells data). exact Hb.
  - unfold values. rewrite groups_concat. apply groups_permutation.
    + apply sorted_lt_NoDup, group_keys_sorted.
    + intros b Hb. apply group_keys_In. unfold index_date.
      apply (in_map (fun x => date_of (timestamp x))). exact Hb.
  - split.
    + intros Hnil. destruct data as [|b data]; [reflexivity|].
      assert (Hin : In (date_of (timestamp b)) (group_keys (index_date table)))
        by (apply group_keys_In; left; reflexivity).
      rewrite <- groups_keys, Hnil in Hin. contradiction.
    + intros ->. reflexivity.
Qed.

Lemma assign_Date_again (data : DataFrame) :
  assign_Date (assign_Date data) = assign_Date data.
Proof. unfold assign_Date. rewrite map_map. apply map_ext. intros b. reflexivity. Qed.

(** X8.  Partitioning the table a second time changes nothing more: the table
    keeps the ['Date'] column of the first call and the same groups come
    back. *)
Theorem group_by_trading_day_again (data : DataFrame) :
  let first := ExchangeRate.group_by_trading_day data in
  ExchangeRate.group_by_trading_day (fst first) = first /\
  UpwardCondition.group_by_trading_day (fst first) = first.
Proof.
  cbv zeta. unfold ExchangeRate.group_by_trading_day,
    UpwardCondition.group_by_trading_day. cbn [fst].
  rewrite assign_Date_again. split; reflexivity.
Qed.

(** ** The analysis over a list of multipliers *)

Lemma dict_set_fresh {V : Type} (d : list (Q * V)) (key : Q) (v : V) :
  (forall e, In e d -> ~ fst e == key) ->
  dict_set d key v = d ++ [(key, v)].
Proof.
  induction d as [|[k w] d IH]; intros H; cbn; [reflexivity|].
  destruct (Qeq_bool k key) eqn:E.
  - apply Qeq_bool_iff in E. exfalso. apply (H (k, w)); [left; reflexivity | exact E].
  - rewrite IH; [reflexivity|]. intros e He. apply H. right. exact He.
Qed.

Section Analysis.

Variable sqrt : Q -> Q.
Variable draw : nat -> nat.
Variable daily_groups : DayGroups.
Variable P : float64 -> Prop.

Hypothesis calculate_P :
  forall m k, exists v sd,
    ExchangeRate.calculate_threshold_crossing sqrt draw daily_groups m
      ExchangeRate.default_num_simulations k
    = Ok ((v, sd),
          (k + ExchangeRate.default_num_simulations
               * length (trial_eligible daily_groups))%nat)
    /\ P v.

Lemma multiplier_loop_entries (multipliers : list Q) (results : list (Q * float64))
    (k : nat) :
  NoDupA Qeq multipliers ->
  (forall e m, In e results -> In m multipliers -> ~ fst e == m) ->
  exists entries,
    ExchangeRate.multiplier_loop sqrt draw daily_groups multipliers results k
    = Ok (results ++ entries,
          (k + length multipliers
               * (ExchangeRate.default_num_simulations
                  * length (trial_eligible daily_groups)))%nat)
    /\ map fst entries = multipliers
    /\ Forall (fun e => P (snd e)) entries.
Proof.
  intros Hnd. revert results k.
  induction Hnd as [|m rest Hm Hrest IH]; intros results k Hfresh.
  - exists []. cbn. unfold ret. rewrite app_nil_r.
    split; [f_equal; f_equal; lia|]. split; [reflexivity | constructor].
  - cbn [ExchangeRate.multiplier_loop]. unfold bind.
    destruct (calculate_P m k) as [v [sd [Hcalc Hv]]]. rewrite Hcalc. cbn [fst].
    rewrite dict_set_fresh
      by (intros e He; apply (Hfresh e m He); left; reflexivity).
    destruct (IH (results ++ [(m, v)])
                 (k + ExchangeRate.default_num_simulations
                      * length (trial_eligible daily_groups))%nat)
      as [entries [Hloop [Hkeys Hall]]].
    { intros e m' He Hm'. apply in_app_or in He. destruct He as [He|[<-|[]]].
      - apply (Hfresh e m' He). right. exact Hm'.
      - cbn. intros Heq. apply Hm. apply InA_alt. exists m'. split; assumption. }
    exists ((m, v) :: entries). rewrite Hloop, <- app_assoc. cbn [app length map fst].
    split; [f_equal; f_equal; lia|]. split; [f_equal; exact Hkeys|].
    constructor; assumption.
Qed.

End Analysis.

Lemma calculate_in_range (sqrt : Q -> Q) (draw : nat -> nat)
    (daily_groups : DayGroups) (m : Q) (sims k : nat) :
  daily_groups <> [] -> (0 < sims)%nat ->
  exists v sd,
    ExchangeRate.calculate_threshold_crossing sqrt draw daily_groups m sims k
    = Ok ((v, sd), (k + sims * length (trial_eligible daily_groups))%nat)
    /\ exists q, v = Fin q /\ 0 <= q <= 100.
Proof.
  intros Hne Hsims. rewrite calculate_value by exact Hne. cbv zeta.
  do 2 eexists. split; [reflexivity|].
  eexists. split.
  - destruct sims; [lia|]. reflexivity.
  - apply Qmean_bounds.
    + apply run_percentages_nonempty. exact Hsims.
    + apply run_percentages_bounds. exact Hne.
Qed.

Lemma default_multipliers_distinct : NoDupA Qeq ExchangeRate.default_multipliers.
Proof.
  unfold ExchangeRate.default_multipliers.
  repeat (constructor;
          [intros H;
           repeat (apply InA_cons in H; destruct H as [H|H];
                   [vm_compute in H; discriminate|]);
           apply InA_nil in H; exact H|]).
  constructor.
Qed.

(** X9.  On a non-empty DayGroups and pairwise different multipliers
    [run_threshold_analysis] of the unconditional script raises nothing and
    returns one entry per multiplier, in the order given, each a finite
    percentage between 0 and 100; it takes 100 runs per multiplier from the
    generator, one after the other. *)
Theorem run_threshold_analysis_entries (sqrt : Q -> Q) (draw : nat -> nat)
    (daily_groups : DayGroups) (multipliers : list Q) (k : nat) :
  daily_groups <> [] ->
  NoDupA Qeq multipliers ->
  exists results,
    ExchangeRate.run_threshold_analysis sqrt draw daily_groups multipliers k
    = Ok (results,
          (k + length multipliers * (100 * length (trial_eligible daily_groups)))%nat)
    /\ map fst results = multipliers
    /\ Forall (fun e => exists q, snd e = Fin q /\ 0 <= q <= 100) results.
Proof.
  intros Hne Hnd. unfold ExchangeRate.run_threshold_analysis.
  destruct (multiplier_loop_entries sqrt draw daily_groups
              (fun v => exists q, v = Fin q /\ 0 <= q <= 100)) with
    (multipliers := multipliers) (results := @nil (Q * float64)) (k := k)
    as [entries [Hloop [Hkeys Hall]]].
  - intros m k0. apply calculate_in_range; [exact Hne|].
    unfold ExchangeRate.default_num_simulations. lia.
  - exact Hnd.
  - intros e m [].
  - exists entries. rewrite Hloop. cbn [app].
    unfold ExchangeRate.default_num_simulations. repeat split; assumption.
Qed.

Lemma run_threshold_analysis_entries_witness :
  exists results,
    ExchangeRate.run_threshold_analysis sqrt6 draw_zero two_days [1 # 100; 2] 0%nat
    = Ok (results, (0 + 2 * (100 * length (trial_eligible two_days)))%nat)
    /\ map fst results = [1 # 100; 2]
    /\ Forall (fun e => exists q, snd e = Fin q /\ 0 <= q <= 100) results.
Proof.
  apply (run_threshold_analysis_entries sqrt6 draw_zero two_days [1 # 100; 2] 0).
  - discriminate.
  - repeat (constructor;
            [intros H;
             repeat (apply InA_cons in H; destruct H as [H|H];
                     [vm_compute in H; discriminate|]);
             apply InA_nil in H; exact H|]).
    constructor.
Defined.

Lemma groups_nonempty (data : DataFrame) :
  data <> [] -> snd (ExchangeRate.group_by_trading_day data) <> [].
Proof.
  intros Hne Hnil. unfold ExchangeRate.group_by_trading_day in Hnil. cbn [snd] in Hnil.
  destruct data as [|b data]; [congruence|].
  assert (Hin : In (date_of (timestamp b))
                   (group_keys (index_date (assign_Date (b :: data)))))
    by (apply group_keys_In; left; reflexivity).
  rewrite <- groups_keys, Hnil in Hin. contradiction.
Qed.

(** X10.  [main] of the unconditional script, given a non-empty history, raises
    nothing: it reports one finite percentage between 0 and 100 for each of
    the eleven default multipliers, in their order. *)
Theorem main_reports_every_multiplier (sqrt : Q -> Q) (draw : nat -> nat)
    (history : DataFrame) (k : nat) :
  history <> [] ->
  exists results k',
    ExchangeRate.main sqrt draw history k = Ok (results, k')
    /\ map fst results = ExchangeRate.default_multipliers
    /\ length results = 11%nat
    /\ Forall (fun e => exists q, snd e = Fin q /\ 0 <= q <= 100) results.
Proof.
  intros Hne. unfold ExchangeRate.main, bind, lift.
  destruct history as [|b history]; [congruence|]. cbn [ExchangeRate.download_forex_data].
  unfold ExchangeRate.run_threshold_analysis.
  destruct (multiplier_loop_entries sqrt draw
              (snd (ExchangeRate.group_by_trading_day (b :: history)))
              (fun v => exists q, v = Fin q /\ 0 <= q <= 100)) with
    (multipliers := ExchangeRate.default_multipliers)
    (results := @nil (Q * float64)) (k := k)
    as [entries [Hloop [Hkeys Hall]]].
  - intros m k0. apply calculate_in_range; [apply groups_nonempty; discriminate|].
    unfold ExchangeRate.default_num_simulations. lia.
  - apply default_multipliers_distinct.
  - intros e m [].
  - exists entries. eexists. rewrite Hloop. cbn [app].
    split; [reflexivity|]. split; [exact Hkeys|]. split; [|exact Hall].
    rewrite <- (length_map fst), Hkeys. reflexivity.
Qed.

Lemma main_reports_every_multiplier_witness :
  exists results k',
    ExchangeRate.main sqrt6 draw_zero sample_series 0%nat = Ok (results, k')
    /\ map fst results = ExchangeRate.default_multipliers
    /\ length results = 11%nat
    /\ Forall (fun e => exists q, snd e = Fin q /\ 0 <= q <= 100) results.
Proof.
  apply (main_reports_every_multiplier sqrt6 draw_zero sample_series 0).
  discriminate.
Defined.

(** ** Days of a single bar *)

Lemma trial_eligible_thin (daily_groups : DayGroups) :
  Forall (fun item => (length (snd item) < 2)%nat) daily_groups ->
  trial_eligible daily_groups = [].
Proof.
  unfold trial_eligible, values. induction 1 as [|item rest Hi Hrest IH].
  - reflexivity.
  - cbn [map filter].
    match goal with
    | |- (if ?c then _ else _) = _ =>
        assert (E : c = false)
          by (unfold close_values; rewrite length_map; apply Nat.leb_gt; exact Hi);
        rewrite E
    end.
    exact IH.
Qed.

Lemma run_percentages_thin (draw : nat -> nat) (m : Q) (s : float64)
    (daily_groups : DayGroups) (sims k : nat) :
  trial_eligible daily_groups = [] ->
  Forall (fun x => 0 <= x <= 0) (run_percentages draw m s daily_groups sims k).
Proof.
  intros He. revert k. induction sims as [|sims IH]; intros k; cbn.
  - constructor.
  - constructor; [|apply IH]. rewrite He. cbn.
    unfold percentage, Qle. cbn. lia.
Qed.

Lemma pooled_outcome_thin (draw : nat -> nat) (o : Outcome) (m : Q) (s : float64)
    (daily_groups : DayGroups) (sims k : nat) :
  trial_eligible daily_groups = [] ->
  pooled_outcome draw o m s daily_groups sims k = 0%nat.
Proof.
  intros He. revert k. induction sims as [|sims IH]; intros k; cbn; [reflexivity|].
  rewrite He, IH. reflexivity.
Qed.

(** X11.  When every day has fewer than two bars no trial is made and the
    generator is not read.  The unconditional analysis then reports 0 for
    every multiplier; the conditional analysis raises [ZeroDivisionError] at
    its first multiplier and reports nothing. *)
Theorem single_bar_days_analysis (sqrt : Q -> Q) (draw : nat -> nat)
    (daily_groups : DayGroups) (multipliers : list Q) (k : nat) :
  daily_groups <> [] ->
  Forall (fun item => (length (snd item) < 2)%nat) daily_groups ->
  multipliers <> [] ->
  NoDupA Qeq multipliers ->
  (exists results,
     ExchangeRate.run_threshold_analysis sqrt draw daily_groups multipliers k
     = Ok (results, k)
     /\ map fst results = multipliers
     /\ Forall (fun e => exists q, snd e = Fin q /\ q == 0) results)
  /\ UpwardCondition.run_threshold_analysis sqrt draw daily_groups multipliers k
     = Raise ZeroDivisionError.
Proof.
  intros Hne Hthin Hm Hnd.
  pose proof (trial_eligible_thin daily_groups Hthin) as He. split.
  - unfold ExchangeRate.run_threshold_analysis.
    destruct (multiplier_loop_entries sqrt draw daily_groups
                (fun v => exists q, v = Fin q /\ q == 0)) with
      (multipliers := multipliers) (results := @nil (Q * float64)) (k := k)
      as [entries [Hloop [Hkeys Hall]]].
    + intros m k0. rewrite calculate_value by exact Hne. cbv zeta.
      do 2 eexists. split; [reflexivity|].
      eexists. split; [reflexivity|].
      apply Qle_antisym;
        apply (Qmean_bounds 0 0);
        try (apply run_percentages_nonempty;
             unfold ExchangeRate.default_num_simulations; lia);
        apply run_percentages_thin; exact He.
    + exact Hnd.
    + intros e m [].
    + exists entries. rewrite Hloop, He. cbn [app length].
      split; [f_equal; f_equal; lia|]. split; assumption.
  - unfold UpwardCondition.run_threshold_analysis.
    destruct multipliers as [|m rest]; [congruence|].
    cbn [UpwardCondition.multiplier_loop]. unfold bind.
    rewrite cond_calculate_value by exact Hne. cbv zeta.
    rewrite !pooled_outcome_thin by exact He. reflexivity.
Qed.

Lemma single_bar_days_analysis_witness :
  (exists results,
     ExchangeRate.run_threshold_analysis sqrt6 draw_one thin_days [1 # 100; 2] 0%nat
     = Ok (results, 0%nat)
     /\ map fst results = [1 # 100; 2]
     /\ Forall (fun e => exists q, snd e = Fin q /\ q == 0) results)
  /\ UpwardCondition.run_threshold_analysis sqrt6 draw_one thin_days [1 # 100; 2] 0%nat
     = Raise ZeroDivisionError.
Proof.
  apply (single_bar_days_analysis sqrt6 draw_one thin_days [1 # 100; 2] 0).
  - discriminate.
  - repeat constructor.
  - discriminate.
  - repeat (constructor;
            [intros H;
             repeat (apply InA_cons in H; destruct H as [H|H];
                     [vm_compute in H; discriminate|]);
             apply InA_nil in H; exact H|]).
    constructor.
Defined.

(** ** Loops that count days *)

Lemma list_sum_cons (x : nat) (l : list nat) :
  list_sum (x :: l) = (x + list_sum l)%nat.
Proof. reflexivity. Qed.

Section ForEach.

Context {A : Type}.
Variable body : A -> nat -> M nat.
Variable used : A -> nat.

Lemma for_each_bounds (xs : list A) :
  (forall x c k, exists b,
      body x c k = Ok ((c + tick b)%nat, (k + used x)%nat)) ->
  forall c k, exists c',
    for_each body xs c k = Ok (c', (k + list_sum (map used xs))%nat)
    /\ (c <= c' <= c + length xs)%nat.
Proof.
  intros Hbody. induction xs as [|x xs IH]; intros c k.
  - exists c. cbn. unfold ret. split; [f_equal; f_equal; lia | lia].
  - cbn [for_each]. unfold bind.
    destruct (Hbody x c k) as [b Hb]. rewrite Hb.
    destruct (IH (c + tick b)%nat (k + used x)%nat) as [c' [Hc' Hle]].
    exists c'. rewrite Hc'. cbn [map length]. rewrite list_sum_cons.
    split; [f_equal; f_equal; lia|]. destruct b; cbn [tick] in Hle; lia.
Qed.

Lemma for_each_exact (f : A -> nat) (xs : list A) :
  (forall x c k, In x xs -> body x c k = Ok ((c + f x)%nat, (k + used x)%nat)) ->
  forall c k,
    for_each body xs c k
    = Ok ((c + list_sum (map f xs))%nat, (k + list_sum (map used xs))%nat).
Proof.
  induction xs as [|x xs IH]; intros Hbody c k.
  - cbn. unfold ret. f_equal. f_equal; lia.
  - cbn [for_each]. unfold bind. rewrite Hbody by (left; reflexivity).
    rewrite IH by (intros y c0 k0 Hy; apply Hbody; right; exact Hy).
    cbn [map]. rewrite !list_sum_cons. f_equal. f_equal; lia.
Qed.

End ForEach.

Section ForRange.

Variable sim : list Q -> M (list Q).
Variable width : nat.
Variables lo hi : Q.

Hypothesis sim_appends :
  forall results k, exists p,
    sim results k = Ok (results ++ [p], (k + width)%nat) /\ lo <= p <= hi.

Lemma for_range_appends (n : nat) (results : list Q) (k : nat) :
  exists ps,
    for_range sim n results k = Ok (results ++ ps, (k + n * width)%nat)
    /\ length ps = n
    /\ Forall (fun p => lo <= p <= hi) ps.
Proof.
  revert results k. induction n as [|n IH]; intros results k.
  - exists []. cbn. unfold ret. rewrite app_nil_r.
    split; [f_equal; f_equal; lia|]. split; [reflexivity | constructor].
  - cbn [for_range]. unfold bind.
    destruct (sim_appends results k) as [p [Hp Hrange]]. rewrite Hp.
    destruct (IH (results ++ [p]) (k + width)%nat) as [ps [Hps [Hlen Hall]]].
    exists (p :: ps). rewrite Hps, <- app_assoc. cbn [app length].
    split; [f_equal; f_equal; lia|]. split; [f_equal; exact Hlen|].
    constructor; assumption.
Qed.

(** The mean returned after at least one run. *)
Lemma for_range_mean (n k : nat) :
  (0 < n)%nat ->
  exists mean,
    bind (for_range sim n []) (fun results => ret (np_mean results)) k
    = Ok (Fin mean, (k + n * width)%nat)
    /\ lo <= mean <= hi.
Proof.
  intros Hn. unfold bind.
  destruct (for_range_appends n [] k) as [ps [Hps [Hlen Hall]]].
  rewrite Hps. cbn [app]. unfold ret.
  assert (Hne : ps <> []) by (intros ->; cbn in Hlen; lia).
  exists (Qmean ps). split.
  - destruct ps; [congruence | reflexivity].
  - apply Qmean_bounds; assumption.
Qed.

End ForRange.

Lemma list_sum_ticks {A : Type} (h : A -> bool) (xs : list A) :
  list_sum (map (fun x => tick (h x)) xs) = length (filter h xs).
Proof.
  induction xs as [|x xs IH]; [reflexivity|].
  cbn [map filter]. rewrite list_sum_cons, IH.
  destruct (h x); reflexivity.
Qed.

Lemma list_sum_zero {A : Type} (xs : list A) :
  list_sum (map (fun _ => 0%nat) xs) = 0%nat.
Proof. induction xs as [|x xs IH]; [reflexivity|]. cbn [map]. rewrite list_sum_cons, IH. reflexivity. Qed.

Lemma list_sum_le {A : Type} (f : A -> nat) (xs : list A) :
  (forall x, (f x <= 1)%nat) -> (list_sum (map f xs) <= length xs)%nat.
Proof.
  intros H. induction xs as [|x xs IH]; [cbn; lia|].
  cbn [map length]. rewrite list_sum_cons. specialize (H x). lia.
Qed.

Lemma nth_error_last {A : Type} (d x : A) (l : list A) :
  nth_error (x :: l) (length l) = Some (last (x :: l) d).
Proof.
  revert x. induction l as [|y l IH]; intros x; [reflexivity|].
  cbn [length nth_error]. rewrite IH. reflexivity.
Qed.

Lemma iloc_last_cons {A : Type} (x : A) (l : list A) :
  iloc_last (x :: l) = Ok (last (x :: l) x).
Proof.
  unfold iloc_last, iloc. cbn [length]. rewrite Nat.sub_succ, Nat.sub_0_r.
  rewrite (nth_error_last x). reflexivity.
Qed.

Lemma last_map_any {A B : Type} (f : A -> B) (l : list A) (d : A) :
  last (map f l) (f d) = f (last l d).
Proof.
  induction l as [|a l IH]; [reflexivity|].
  destruct l as [|b l]; [reflexivity|].
  cbn [map last] in *. exact IH.
Qed.

Lemma last_close (first : Bar) (day_data : DataFrame) :
  last (close_values (first :: day_data)) (Close first)
  = Close (last (first :: day_data) first).
Proof. unfold close_values. apply last_map_any. Qed.

(** ** Days that close above their open *)

Lemma higher_close_day_tick (item : Z * DataFrame) (c k : nat) :
  ExchangeRate.higher_close_day item c k
  = Ok ((c + tick (closed_higher (snd item)))%nat, (k + 0)%nat).
Proof.
  unfold ExchangeRate.higher_close_day.
  destruct (snd item) as [|first rest].
  - cbn. unfold ret. f_equal. f_equal; lia.
  - cbn [length Nat.ltb Nat.leb]. unfold bind, lift.
    change (close_values (first :: rest))
      with (Close first :: close_values rest).
    rewrite iloc_last_cons.
    change (Close first :: close_values rest) with (close_values (first :: rest)).
    rewrite last_close. cbn [map iloc nth_error fgtb closed_higher].
    destruct (Qlt_bool (Open first) (Close (last (first :: rest) first)));
      unfold ret, tick; f_equal; f_equal; lia.
Qed.

(** X12.  [calculate_daily_higher_close] raises [ZeroDivisionError] on an empty
    DayGroups; otherwise it returns, without reading the generator, 100
    times the number of days whose last close is above their first open
    over the number of days, a value between 0 and 100. *)
Theorem daily_higher_close_percentage (daily_groups : DayGroups) (k : nat) :
  daily_groups <> [] ->
  ExchangeRate.calculate_daily_higher_close [] k = Raise ZeroDivisionError /\
  exists pct,
    ExchangeRate.calculate_daily_higher_close daily_groups k = Ok (pct, k) /\
    pct == 100 * inject_Z (Z.of_nat (length (filter (fun item => closed_higher (snd item))
                                                    daily_groups)))
           / inject_Z (Z.of_nat (length daily_groups)) /\
    0 <= pct <= 100.
Proof.
  intros Hne. split; [reflexivity|].
  assert (Hpos : (0 < length daily_groups)%nat)
    by (destruct daily_groups; [congruence | cbn; lia]).
  unfold ExchangeRate.calculate_daily_higher_close, bind.
  rewrite (for_each_exact ExchangeRate.higher_close_day (fun _ => 0%nat)
             (fun item => tick (closed_higher (snd item))))
    by (intros; apply higher_close_day_tick).
  rewrite list_sum_ticks, list_sum_zero, Nat.add_0_r. cbn [Nat.add]. unfold lift.
  rewrite true_div_pos by exact Hpos. unfold ret.
  set (n := length (filter (fun item => closed_higher (snd item)) daily_groups)).
  exists (percentage n (length daily_groups)).
  split; [|split].
  - reflexivity.
  - apply percentage_value. exact Hpos.
  - apply percentage_bounds; [apply filter_length_le | exact Hpos].
Qed.

Lemma daily_higher_close_percentage_witness :
  ExchangeRate.calculate_daily_higher_close [] 0%nat = Raise ZeroDivisionError /\
  exists pct,
    ExchangeRate.calculate_daily_higher_close two_days 0%nat = Ok (pct, 0%nat) /\
    pct == 100 * inject_Z (Z.of_nat (length (filter (fun item => closed_higher (snd item))
                                                    two_days)))
           / inject_Z (Z.of_nat (length two_days)) /\
    0 <= pct <= 100.
Proof.
  apply (daily_higher_close_percentage two_days 0).
  discriminate.
Defined.

(** ** A random point against the close *)

Section PointVsClose.

Variable draw : nat -> nat.

Lemma point_vs_close_day_tick (item : Z * DataFrame) (c k : nat) :
  exists b,
    ExchangeRate.point_vs_close_day draw item c k
    = Ok ((c + tick b)%nat, (k + tick (0 <? length (snd item))%nat)%nat).
Proof.
  unfold ExchangeRate.point_vs_close_day.
  destruct (snd item) as [|first rest].
  - exists false. cbn. unfold ret. f_equal. f_equal; lia.
  - cbn [length Nat.ltb Nat.leb]. unfold bind.
    rewrite randint_from_zero by lia.
    destruct (nth_error (close_values (first :: rest))
                (draw k mod S (length rest))) as [p|] eqn:Hp.
    + unfold lift, iloc. rewrite Hp.
      change (close_values (first :: rest)) with (Close first :: close_values rest).
      rewrite iloc_last_cons.
      match goal with
      | |- context [if ?b then _ else _] => exists b; destruct b
      end; unfold ret; cbn [tick]; f_equal; f_equal; lia.
    + apply nth_error_None in Hp. unfold close_values in Hp.
      rewrite length_map in Hp. cbn [length] in Hp.
      pose proof (Nat.mod_upper_bound (draw k) (S (length rest))). lia.
Qed.

End PointVsClose.

Section CountingSim.

Variable body : Z * DataFrame -> nat -> M nat.
Variable used : Z * DataFrame -> nat.
Variable daily_groups : DayGroups.

Hypothesis some_day : daily_groups <> [].

(** One simulation run of the three random estimators: count the days, then
    append [count / total_days * 100]. *)
Lemma counting_sim_appends (results : list Q) (k : nat) :
  (forall x c j, exists b, body x c j = Ok ((c + tick b)%nat, (j + used x)%nat)) ->
  exists p,
    bind (for_each body daily_groups 0%nat)
         (fun count =>
            bind (lift (true_div count (length daily_groups)))
                 (fun ratio => ret (results ++ [ratio * 100]))) k
    = Ok (results ++ [p], (k + list_sum (map used daily_groups))%nat)
    /\ 0 <= p <= 100.
Proof.
  intros Hbody. unfold bind.
  destruct (for_each_bounds body used daily_groups Hbody 0%nat k) as [c' [Hc' Hle]].
  rewrite Hc'. unfold lift.
  assert (Hpos : (0 < length daily_groups)%nat)
    by (destruct daily_groups; [congruence | cbn; lia]).
  rewrite true_div_pos by exact Hpos. unfold ret.
  exists (percentage c' (length daily_groups)). split; [reflexivity|].
  apply percentage_bounds; [lia | exact Hpos].
Qed.

Lemma counting_sim_exact (f : Z * DataFrame -> nat) (results : list Q) (k : nat) :
  (forall x c j, In x daily_groups ->
                 body x c j = Ok ((c + f x)%nat, (j + used x)%nat)) ->
  bind (for_each body daily_groups 0%nat)
       (fun count =>
          bind (lift (true_div count (length daily_groups)))
               (fun ratio => ret (results ++ [ratio * 100]))) k
  = Ok (results ++ [percentage (list_sum (map f daily_groups)) (length daily_groups)],
        (k + list_sum (map used daily_groups))%nat).
Proof.
  intros Hbody. unfold bind.
  rewrite (for_each_exact body used f daily_groups Hbody). cbn [Nat.add]. unfold lift.
  rewrite true_div_pos by (destruct daily_groups; [congruence | cbn; lia]).
  reflexivity.
Qed.

End CountingSim.

Lemma last_any_default {A : Type} (l : list A) (d1 d2 : A) :
  l <> [] -> last l d1 = last l d2.
Proof.
  induction l as [|a l IH]; intros Hne; [congruence|].
  destruct l as [|b l]; [reflexivity|].
  cbn [last] in *. apply IH. discriminate.
Qed.

Lemma Qlt_bool_ge (a b : Q) : b <= a -> Qlt_bool a b = false.
Proof.
  intros H. destruct (Qlt_bool a b) eqn:E; [|reflexivity].
  apply Qlt_bool_iff in E. exfalso. apply (Qle_not_lt _ _ H). exact E.
Qed.

Section PointVsCloseRuns.

Variable draw : nat -> nat.

(** A day none of whose closes is below its last close is never counted. *)
Lemma point_vs_close_day_floor (item : Z * DataFrame) (c k : nat) :
  Forall (fun p => last (close_values (snd item)) 0 <= p) (close_values (snd item)) ->
  ExchangeRate.point_vs_close_day draw item c k
  = Ok ((c + 0)%nat, (k + tick (0 <? length (snd item))%nat)%nat).
Proof.
  intros Hfloor. unfold ExchangeRate.point_vs_close_day.
  destruct (snd item) as [|first rest].
  - cbn. unfold ret. f_equal. f_equal; lia.
  - cbn [length Nat.ltb Nat.leb]. unfold bind.
    rewrite randint_from_zero by lia.
    destruct (nth_error (close_values (first :: rest))
                (draw k mod S (length rest))) as [p|] eqn:Hp.
    + unfold lift, iloc. rewrite Hp.
      apply nth_error_In in Hp. rewrite Forall_forall in Hfloor.
      specialize (Hfloor p Hp).
      change (close_values (first :: rest)) with (Close first :: close_values rest)
        in Hfloor |- *.
      rewrite iloc_last_cons.
      rewrite (last_any_default _ 0 (Close first)) in Hfloor by discriminate.
      cbn [fgtb]. rewrite Qlt_bool_ge by exact Hfloor.
      unfold ret. cbn [tick]. f_equal. f_equal; lia.
    + apply nth_error_None in Hp. unfold close_values in Hp.
      rewrite length_map in Hp. cbn [length] in Hp.
      pose proof (Nat.mod_upper_bound (draw k) (S (length rest))). lia.
Qed.

End PointVsCloseRuns.

(** X13.  [calculate_random_point_vs_close], on a non-empty DayGroups and at least
    one run, raises nothing (the drawn position is always inside the day)
    and returns a finite mean between 0 and 100; each run takes one draw
    per non-empty day.  On an empty DayGroups the first run divides by
    zero. *)
Theorem random_point_vs_close_in_range (draw : nat -> nat)
    (daily_groups : DayGroups) (sims k : nat) :
  daily_groups <> [] ->
  (0 < sims)%nat ->
  ExchangeRate.calculate_random_point_vs_close draw [] sims k
    = Raise ZeroDivisionError /\
  exists mean,
    ExchangeRate.calculate_random_point_vs_close draw daily_groups sims k
    = Ok (Fin mean,
          (k + sims * length (filter (fun item => (0 <? length (snd item))%nat)
                                     daily_groups))%nat)
    /\ 0 <= mean <= 100.
Proof.
  intros Hne Hsims. split; [destruct sims; [lia | reflexivity]|].
  rewrite <- (list_sum_ticks (fun item : Z * DataFrame => (0 <? length (snd item))%nat)).
  unfold ExchangeRate.calculate_random_point_vs_close.
  apply for_range_mean; [|exact Hsims].
  intros results j. unfold ExchangeRate.point_vs_close_sim.
  apply (counting_sim_appends (ExchangeRate.point_vs_close_day draw)
           (fun item => tick (0 <? length (snd item))%nat) daily_groups Hne).
  intros x c i. apply point_vs_close_day_tick.
Qed.

Lemma random_point_vs_close_in_range_witness :
  ExchangeRate.calculate_random_point_vs_close draw_one [] 3 0%nat
    = Raise ZeroDivisionError /\
  exists mean,
    ExchangeRate.calculate_random_point_vs_close draw_one two_days 3 0%nat
    = Ok (Fin mean,
          (0 + 3 * length (filter (fun item => (0 <? length (snd item))%nat)
                                  two_days))%nat)
    /\ 0 <= mean <= 100.
Proof.
  apply (random_point_vs_close_in_range draw_one two_days 3 0).
  - discriminate.
  - lia.
Defined.

(** X14.  When in every day no close is below the day's last close (a single-bar
    day is such a day), [calculate_random_point_vs_close] returns a mean of
    0 whatever is drawn. *)
Theorem random_point_vs_close_floor (draw : nat -> nat)
    (daily_groups : DayGroups) (sims k : nat) :
  daily_groups <> [] ->
  (0 < sims)%nat ->
  Forall (fun item =>
            Forall (fun p => last (close_values (snd item)) 0 <= p)
                   (close_values (snd item))) daily_groups ->
  exists mean k',
    ExchangeRate.calculate_random_point_vs_close draw daily_groups sims k
    = Ok (Fin mean, k')
    /\ mean == 0.
Proof.
  intros Hne Hsims Hfloor.
  unfold ExchangeRate.calculate_random_point_vs_close.
  destruct (for_range_mean (ExchangeRate.point_vs_close_sim draw daily_groups)
              (list_sum (map (fun item : Z * DataFrame =>
                                tick (0 <? length (snd item))%nat) daily_groups))
              0 0) with (n := sims) (k := k) as [mean [Hmean Hrange]].
  - intros results j. unfold ExchangeRate.point_vs_close_sim.
    rewrite (counting_sim_exact (ExchangeRate.point_vs_close_day draw)
               (fun item => tick (0 <? length (snd item))%nat) daily_groups Hne
               (fun _ => 0%nat)).
    + eexists. split; [reflexivity|].
      rewrite list_sum_zero. unfold percentage, Qle. cbn. lia.
    + intros x c i Hx. apply point_vs_close_day_floor.
      rewrite Forall_forall in Hfloor. apply Hfloor. exact Hx.
  - exact Hsims.
  - exists mean. eexists. split; [exact Hmean|].
    apply Qle_antisym; apply Hrange.
Qed.

Lemma random_point_vs_close_floor_witness :
  exists mean k',
    ExchangeRate.calculate_random_point_vs_close draw_one thin_days 3 0%nat
    = Ok (Fin mean, k')
    /\ mean == 0.
Proof.
  apply (random_point_vs_close_floor draw_one thin_days 3 0).
  - discriminate.
  - lia.
  - repeat constructor; cbn; discriminate.
Defined.

(** ** Two random points of a day *)

Section PointsComparison.

Variable draw : nat -> nat.

(** The two positions drawn, once sorted, are an earlier and a later
    position of the day. *)
Lemma choice2_sorted (n k : nat) :
  (2 <= n)%nat ->
  exists a b,
    choice2 draw n k = Ok ((a, b), S (S k)) /\
    (fst (sorted2 a b) < snd (sorted2 a b) < n)%nat.
Proof.
  intros Hn. unfold choice2.
  destruct (2 <=? n)%nat eqn:E; [|apply Nat.leb_gt in E; lia].
  do 2 eexists. split; [reflexivity|].
  pose proof (Nat.mod_upper_bound (draw k) n).
  pose proof (Nat.mod_upper_bound (draw (S k)) (n - 1)).
  unfold sorted2.
  destruct (draw (S k) mod (n - 1) <? draw k mod n)%nat eqn:E1.
  - rewrite E1. cbn [fst snd]. apply Nat.ltb_lt in E1. lia.
  - apply Nat.ltb_ge in E1.
    destruct (S (draw (S k) mod (n - 1)) <? draw k mod n)%nat eqn:E2.
    + apply Nat.ltb_lt in E2. lia.
    + cbn [fst snd]. lia.
Qed.

Lemma points_comparison_day_tick (item : Z * DataFrame) (c k : nat) :
  exists b,
    ExchangeRate.points_comparison_day draw item c k
    = Ok ((c + tick b)%nat,
          (k + 2 * tick (1 <? length (snd item))%nat)%nat).
Proof.
  unfold ExchangeRate.points_comparison_day.
  destruct (1 <? length (snd item))%nat eqn:E.
  - apply Nat.ltb_lt in E. unfold bind.
    destruct (choice2_sorted (length (snd item)) k) as [a [b [Hch Hlt]]]; [lia|].
    rewrite Hch. cbn [fst snd].
    destruct (sorted2 a b) as [idx1 idx2]. cbn [fst snd] in Hlt.
    assert (Hlen : length (close_values (snd item)) = length (snd item))
      by (unfold close_values; apply length_map).
    destruct (nth_error (close_values (snd item)) idx1) as [p1|] eqn:H1;
      [|apply nth_error_None in H1; lia].
    destruct (nth_error (close_values (snd item)) idx2) as [p2|] eqn:H2;
      [|apply nth_error_None in H2; lia].
    unfold lift, iloc. rewrite H1, H2.
    exists (fgtb (Fin p2) (Fin p1)).
    destruct (fgtb (Fin p2) (Fin p1)); unfold ret; cbn [tick];
      f_equal; f_equal; lia.
  - exists false. unfold ret. cbn [tick]. f_equal. f_equal; lia.
Qed.

Lemma rising_nth (l : list Q) (i j : nat) (p q : Q) :
  StronglySorted Qlt l -> (i < j)%nat ->
  nth_error l i = Some p -> nth_error l j = Some q -> p < q.
Proof.
  intros Hs. revert i j. induction Hs as [|x l Hs IH Hx]; intros i j Hij Hi Hj.
  - destruct i; discriminate.
  - destruct j as [|j]; [lia|]. cbn in Hj. destruct i as [|i].
    + cbn in Hi. injection Hi as <-. rewrite Forall_forall in Hx.
      apply Hx. eapply nth_error_In. exact Hj.
    + cbn in Hi. apply (IH i j); [lia | assumption | assumption].
Qed.

(** A day of rising closes is counted whenever it has two bars or more. *)
Lemma points_comparison_day_rising (item : Z * DataFrame) (c k : nat) :
  StronglySorted Qlt (close_values (snd item)) ->
  ExchangeRate.points_comparison_day draw item c k
  = Ok ((c + tick (1 <? length (snd item))%nat)%nat,
        (k + 2 * tick (1 <? length (snd item))%nat)%nat).
Proof.
  intros Hrise. unfold ExchangeRate.points_comparison_day.
  destruct (1 <? length (snd item))%nat eqn:E.
  - apply Nat.ltb_lt in E. unfold bind.
    destruct (choice2_sorted (length (snd item)) k) as [a [b [Hch Hlt]]]; [lia|].
    rewrite Hch. cbn [fst snd].
    destruct (sorted2 a b) as [idx1 idx2]. cbn [fst snd] in Hlt.
    assert (Hlen : length (close_values (snd item)) = length (snd item))
      by (unfold close_values; apply length_map).
    destruct (nth_error (close_values (snd item)) idx1) as [p1|] eqn:H1;
      [|apply nth_error_None in H1; lia].
    destruct (nth_error (close_values (snd item)) idx2) as [p2|] eqn:H2;
      [|apply nth_error_None in H2; lia].
    unfold lift, iloc. rewrite H1, H2. cbn [fgtb].
    assert (Hp : Qlt_bool p1 p2 = true).
    { apply Qlt_bool_iff. apply (rising_nth _ idx1 idx2 p1 p2 Hrise); [lia | assumption | assumption]. }
    rewrite Hp. unfold ret. cbn [tick]. f_equal. f_equal; lia.
  - unfold ret. cbn [tick]. f_equal. f_equal; lia.
Qed.

End PointsComparison.

(** X15.  [calculate_random_points_comparison], on a non-empty DayGroups and at
    least one run, raises nothing (the two positions drawn are different
    positions of the day) and returns a finite mean between 0 and 100; days
    of fewer than two bars draw nothing ([choice2] reads two entries of the
    stream for each other day).  On an empty DayGroups the first run divides
    by zero. *)
Theorem random_points_comparison_in_range (draw : nat -> nat)
    (daily_groups : DayGroups) (sims k : nat) :
  daily_groups <> [] ->
  (0 < sims)%nat ->
  ExchangeRate.calculate_random_points_comparison draw [] sims k
    = Raise ZeroDivisionError /\
  exists mean,
    ExchangeRate.calculate_random_points_comparison draw daily_groups sims k
    = Ok (Fin mean,
          (k + sims * (2 * length (filter (fun item => (1 <? length (snd item))%nat)
                                          daily_groups)))%nat)
    /\ 0 <= mean <= 100.
Proof.
  intros Hne Hsims. split; [destruct sims; [lia | reflexivity]|].
  assert (Hused : list_sum (map (fun item : Z * DataFrame =>
                                   (2 * tick (1 <? length (snd item)))%nat) daily_groups)
                  = (2 * length (filter (fun item : Z * DataFrame =>
                                           (1 <? length (snd item))%nat) daily_groups))%nat).
  { rewrite <- list_sum_ticks. clear.
    induction daily_groups as [|d rest IH]; [reflexivity|].
    cbn [map]. rewrite !list_sum_cons, IH. lia. }
  unfold ExchangeRate.calculate_random_points_comparison.
  destruct (for_range_mean (ExchangeRate.points_comparison_sim draw daily_groups)
              (list_sum (map (fun item : Z * DataFrame =>
                                (2 * tick (1 <? length (snd item)))%nat) daily_groups))
              0 100)
    with (n := sims) (k := k) as [mean [Hmean Hrange]].
  - intros results j. unfold ExchangeRate.points_comparison_sim.
    apply (counting_sim_appends (ExchangeRate.points_comparison_day draw)
             (fun item => (2 * tick (1 <? length (snd item)))%nat) daily_groups Hne).
    intros x c i. apply points_comparison_day_tick.
  - exact Hsims.
  - exists mean. split; [|exact Hrange]. rewrite Hmean.
    apply (f_equal (fun w => Ok (Fin mean, (k + sims * w)%nat))). exact Hused.
Qed.

Lemma random_points_comparison_in_range_witness :
  ExchangeRate.calculate_random_points_comparison draw_one [] 3 0%nat
    = Raise ZeroDivisionError /\
  exists mean,
    ExchangeRate.calculate_random_points_comparison draw_one peak_day 3 0%nat
    = Ok (Fin mean,
          (0 + 3 * (2 * length (filter (fun item => (1 <? length (snd item))%nat)
                                       peak_day)))%nat)
    /\ 0 <= mean <= 100.
Proof.
  apply (random_points_comparison_in_range draw_one peak_day 3 0).
  - discriminate.
  - lia.
Defined.

(** X16.  When the closes of every day rise strictly, the later of the two points
    is always above the earlier one: whatever is drawn,
    [calculate_random_points_comparison] returns 100 times the number of
    days of two bars or more over the number of days. *)
Theorem random_points_comparison_rising (draw : nat -> nat)
    (daily_groups : DayGroups) (sims k : nat) :
  daily_groups <> [] ->
  (0 < sims)%nat ->
  Forall (fun item => StronglySorted Qlt (close_values (snd item))) daily_groups ->
  exists mean k',
    ExchangeRate.calculate_random_points_comparison draw daily_groups sims k
    = Ok (Fin mean, k')
    /\ mean == 100 * inject_Z (Z.of_nat (length (filter (fun item =>
                                                          (1 <? length (snd item))%nat)
                                                       daily_groups)))
               / inject_Z (Z.of_nat (length daily_groups)).
Proof.
  intros Hne Hsims Hrise.
  set (e := length (filter (fun item : Z * DataFrame => (1 <? length (snd item))%nat)
                           daily_groups)).
  assert (Hpos : (0 < length daily_groups)%nat)
    by (destruct daily_groups; [congruence | cbn; lia]).
  unfold ExchangeRate.calculate_random_points_comparison.
  destruct (for_range_mean (ExchangeRate.points_comparison_sim draw daily_groups)
              (list_sum (map (fun item : Z * DataFrame =>
                                (2 * tick (1 <? length (snd item)))%nat) daily_groups))
              (percentage e (length daily_groups))
              (percentage e (length daily_groups)))
    with (n := sims) (k := k) as [mean [Hmean Hrange]].
  - intros results j. unfold ExchangeRate.points_comparison_sim.
    rewrite (counting_sim_exact (ExchangeRate.points_comparison_day draw)
               (fun item => (2 * tick (1 <? length (snd item)))%nat) daily_groups Hne
               (fun item => tick (1 <? length (snd item))%nat)).
    + eexists. split; [reflexivity|].
      rewrite list_sum_ticks. fold e. split; apply Qle_refl.
    + intros x c i Hx. apply points_comparison_day_rising.
      rewrite Forall_forall in Hrise. apply Hrise. exact Hx.
  - exact Hsims.
  - exists mean. eexists. split; [exact Hmean|].
    rewrite <- percentage_value by exact Hpos.
    apply Qle_antisym; apply Hrange.
Qed.

Lemma random_points_comparison_rising_witness :
  exists mean k',
    ExchangeRate.calculate_random_points_comparison draw_one two_days 3 0%nat
    = Ok (Fin mean, k')
    /\ mean == 100 * inject_Z (Z.of_nat (length (filter (fun item =>
                                                          (1 <? length (snd item))%nat)
                                                       two_days)))
               / inject_Z (Z.of_nat (length two_days)).
Proof.
  apply (random_points_comparison_rising draw_one two_days 3 0).
  - discriminate.
  - lia.
  - repeat constructor.
Defined.

(** ** The dispersion statistic does not depend on the order of the days *)

Lemma Qsum_permutation (xs ys : list Q) : Permutation xs ys -> Qsum xs == Qsum ys.
Proof.
  induction 1 as [|x xs ys H IH|x y xs|xs ys zs H1 IH1 H2 IH2].
  - reflexivity.
  - cbn [Qsum fold_right]. fold (Qsum xs). fold (Qsum ys). rewrite IH. reflexivity.
  - cbn [Qsum fold_right]. fold (Qsum xs). ring.
  - rewrite IH1. exact IH2.
Qed.

Lemma Qmean_permutation (xs ys : list Q) : Permutation xs ys -> Qmean xs == Qmean ys.
Proof.
  intros H. unfold Qmean.
  rewrite (Qsum_permutation xs ys H), (Permutation_length H). reflexivity.
Qed.

Lemma variance_permutation (xs ys : list Q) :
  Permutation xs ys -> variance_spec xs == variance_spec ys.
Proof.
  intros H. unfold variance_spec.
  rewrite (Qmean_permutation xs ys H).
  rewrite (Qmean_permutation (map (fun x => x * x) xs) (map (fun x => x * x) ys))
    by (apply Permutation_map; exact H).
  reflexivity.
Qed.

Lemma pooled_permutation (days days' : list DataFrame) :
  Permutation days days' ->
  Permutation (concat (map close_values days)) (concat (map close_values days')).
Proof.
  induction 1 as [|d l l' H IH|d e l|l l' l'' H1 IH1 H2 IH2].
  - constructor.
  - cbn. apply Permutation_app_head. exact IH.
  - cbn. rewrite !app_assoc. apply Permutation_app_tail. apply Permutation_app_comm.
  - eapply Permutation_trans; eassumption.
Qed.

(** X17.  Listing the days of the DayGroups in another order leaves the
    dispersion statistic of both scripts as it is. *)
Theorem dispersion_any_day_order (sqrt : Q -> Q) (daily_groups daily_groups' : DayGroups) :
  Permutation daily_groups daily_groups' ->
  np_std sqrt (ExchangeRate.all_prices daily_groups)
  = np_std sqrt (ExchangeRate.all_prices daily_groups') /\
  np_std sqrt (UpwardCondition.all_prices daily_groups)
  = np_std sqrt (UpwardCondition.all_prices daily_groups').
Proof.
  intros H.
  assert (Hp : Permutation (concat (map close_values (values daily_groups)))
                           (concat (map close_values (values daily_groups'))))
    by (apply pooled_permutation; unfold values; apply Permutation_map; exact H).
  assert (Heq : np_std sqrt (concat (map close_values (values daily_groups)))
                = np_std sqrt (concat (map close_values (values daily_groups')))).
  { rewrite !np_std_population.
    destruct (concat (map close_values (values daily_groups))) as [|x xs] eqn:E1.
    - apply Permutation_nil in Hp. rewrite Hp. reflexivity.
    - destruct (concat (map close_values (values daily_groups'))) as [|y ys] eqn:E2.
      + apply Permutation_sym, Permutation_nil in Hp. discriminate.
      + f_equal. f_equal. apply Qred_complete. apply variance_permutation. exact Hp. }
  split; [rewrite !all_prices_pooled | rewrite !cond_all_prices_pooled]; exact Heq.
Qed.

Lemma dispersion_any_day_order_witness :
  np_std sqrt6 (ExchangeRate.all_prices two_days)
  = np_std sqrt6 (ExchangeRate.all_prices (rev two_days)) /\
  np_std sqrt6 (UpwardCondition.all_prices two_days)
  = np_std sqrt6 (UpwardCondition.all_prices (rev two_days)).
Proof.
  apply (dispersion_any_day_order sqrt6 two_days (rev two_days)).
  apply Permutation_rev.
Defined.

(** ** The name of the data file *)

Lemma append_prefix_inj (p a b : string) : (p ++ a = p ++ b)%string -> a = b.
Proof.
  induction p as [|c p IH]; cbn; intros H; [exact H|].
  injection H as H. apply IH. exact H.
Qed.

Lemma digits_then_mark (c : ascii) (s s' t t' : string) :
  is_digit c = false ->
  digit_string s -> digit_string s' ->
  (s ++ String c t = s' ++ String c t')%string ->
  s = s' /\ t = t'.
Proof.
  intros Hc. revert s'. induction s as [|a s IH]; intros s' Hs Hs' H.
  - destruct s' as [|a' s']; cbn in H.
    + injection H as H. split; [reflexivity | exact H].
    + injection H as Ha _. subst a'. cbn in Hs'. destruct Hs' as [Hd _]. congruence.
  - destruct s' as [|a' s']; cbn in H.
    + injection H as Ha _. subst a. cbn in Hs. destruct Hs as [Hd _]. congruence.
    + injection H as Ha H. subst a'. cbn in Hs, Hs'.
      destruct (IH s' (proj2 Hs) (proj2 Hs') H) as [-> ->]. split; reflexivity.
Qed.

Lemma uint_digit_string (d : Decimal.uint) :
  digit_string (DecimalString.NilEmpty.string_of_uint d).
Proof. induction d; cbn; auto. Qed.

Lemma str_int_digits (n : nat) : digit_string (str_int n).
Proof. apply uint_digit_string. Qed.

Lemma str_int_inj (n n' : nat) : str_int n = str_int n' -> n = n'.
Proof.
  unfold str_int. intros H. apply DecimalNat.Unsigned.to_uint_inj.
  apply (f_equal DecimalString.NilEmpty.uint_of_string) in H.
  rewrite !DecimalString.NilEmpty.usu in H. injection H as H. exact H.
Qed.

(** The year and month printed in a file name can be read back from it. *)
Lemma data_filename_fields (now now' : nat * nat) :
  ExchangeRate.get_data_filename now = ExchangeRate.get_data_filename now' ->
  str_int (fst now) = str_int (fst now') /\ str_int (snd now) = str_int (snd now').
Proof.
  destruct now as [y m], now' as [y' m'].
  unfold ExchangeRate.get_data_filename. cbn [fst snd]. intros H.
  apply append_prefix_inj in H.
  change ("/" ++ ("eurusd_hourly_" ++ str_int y ++ "_" ++ str_int m ++ ".csv"))%string
    with ("/eurusd_hourly_" ++ (str_int y ++ String "_" (str_int m ++ ".csv")))%string
    in H.
  change ("/" ++ ("eurusd_hourly_" ++ str_int y' ++ "_" ++ str_int m' ++ ".csv"))%string
    with ("/eurusd_hourly_" ++ (str_int y' ++ String "_" (str_int m' ++ ".csv")))%string
    in H.
  apply append_prefix_inj in H.
  apply digits_then_mark in H;
    [|reflexivity | apply str_int_digits | apply str_int_digits].
  destruct H as [Hy H].
  change ((str_int m ++ ".csv")%string) with ((str_int m ++ String "." "csv")%string) in H.
  change ((str_int m' ++ ".csv")%string) with ((str_int m' ++ String "." "csv")%string) in H.
  apply digits_then_mark in H;
    [|reflexivity | apply str_int_digits | apply str_int_digits].
  destruct H as [Hm _]. split; assumption.
Qed.

(** X18.  Different months have different data files: the file name determines
    the year and the month it was made for. *)
Theorem get_data_filename_inj (now now' : nat * nat) :
  ExchangeRate.get_data_filename now = ExchangeRate.get_data_filename now' ->
  now = now'.
Proof.
  intros H. apply data_filename_fields in H. destruct H as [Hy Hm].
  apply str_int_inj in Hy. apply str_int_inj in Hm.
  destruct now as [y m], now' as [y' m']. cbn [fst snd] in Hy, Hm.
  subst. reflexivity.
Qed.

Lemma get_data_filename_inj_witness :
  ExchangeRate.get_data_filename (2026, 11)%nat = "forex_data/eurusd_hourly_2026_11.csv"%string
  /\ (2026, 11)%nat = (2026, 11)%nat
  /\ ExchangeRate.get_data_filename (2026, 1)%nat
     <> ExchangeRate.get_data_filename (2026, 11)%nat.
Proof.
  split; [reflexivity|]. split.
  - apply (get_data_filename_inj (2026, 11)%nat (2026, 11)%nat). reflexivity.
  - intros H. apply (get_data_filename_inj (2026, 1)%nat (2026, 11)%nat) in H.
    discriminate.
Defined.

(** X19.  A cached file is fresh exactly when it exists and the data file named
    for the month of its modification is the data file of the current
    month. *)
Theorem fresh_iff_same_filename (mtime : option (nat * nat)) (now : nat * nat) :
  ExchangeRate.is_data_fresh mtime now = true <->
  exists modified,
    mtime = Some modified /\
    ExchangeRate.get_data_filename modified = ExchangeRate.get_data_filename now.
Proof.
  unfold ExchangeRate.is_data_fresh. split.
  - destruct mtime as [[y m]|]; [|discriminate]. destruct now as [y' m'].
    cbn [fst snd]. intros H. apply andb_true_iff in H. destruct H as [Hy Hm].
    apply Nat.eqb_eq in Hy. apply Nat.eqb_eq in Hm. subst.
    eexists. split; reflexivity.
  - intros [modified [-> H]]. apply data_filename_fields in H.
    destruct H as [Hy Hm]. apply str_int_inj in Hy. apply str_int_inj in Hm.
    rewrite Hy, Hm, !Nat.eqb_refl. reflexivity.
Qed.

(** ** The only exception of the estimators *)

(** X20.  [calculate_threshold_crossing] never fails on a draw or on a position:
    the one exception it can raise is [ZeroDivisionError].  The
    unconditional script raises it exactly on an empty DayGroups with at
    least one run; the conditional script exactly when no day of any run
    was classified good or bad. *)
Theorem raises_only_zero_division (sqrt : Q -> Q) (draw : nat -> nat)
    (daily_groups : DayGroups) (multiplier : Q) (sims k : nat) :
  let dispersion := np_std sqrt (UpwardCondition.all_prices daily_groups) in
  (forall e,
     ExchangeRate.calculate_threshold_crossing sqrt draw daily_groups multiplier sims k
     = Raise e ->
     e = ZeroDivisionError) /\
  (ExchangeRate.calculate_threshold_crossing sqrt draw daily_groups multiplier sims k
   = Raise ZeroDivisionError
   <-> daily_groups = [] /\ (0 < sims)%nat) /\
  (forall e,
     UpwardCondition.calculate_threshold_crossing sqrt draw daily_groups multiplier sims k
     = Raise e ->
     e = ZeroDivisionError) /\
  (UpwardCondition.calculate_threshold_crossing sqrt draw daily_groups multiplier sims k
   = Raise ZeroDivisionError
   <-> (pooled_outcome draw good multiplier dispersion daily_groups sims k
        + pooled_outcome draw bad multiplier dispersion daily_groups sims k = 0)%nat).
Proof.
  cbv zeta. destruct daily_groups as [|d rest].
  - rewrite calculate_no_days, cond_calculate_no_days, !pooled_outcome_no_days.
    split; [|split; [|split]].
    + intros e H. destruct sims; [discriminate|]. injection H as <-. reflexivity.
    + split.
      * intros H. split; [reflexivity|]. destruct sims; [discriminate | lia].
      * intros [_ H]. destruct sims; [lia | reflexivity].
    + intros e H. injection H as <-. reflexivity.
    + split; intros _; reflexivity.
  - rewrite calculate_value, cond_calculate_value by discriminate. cbv zeta.
    split; [|split; [|split]].
    + intros e H. discriminate.
    + split; [intros H; discriminate | intros [H _]; discriminate].
    + intros e H.
      match type of H with
      | match ?t with _ => _ end = _ => destruct t; [|discriminate]
      end.
      injection H as <-. reflexivity.
    + match goal with
      | |- match ?t with _ => _ end = _ <-> _ => destruct t
      end; split; intros H; try reflexivity; discriminate.
Qed.

(** ** The conditional analysis reports all multipliers or none *)

Lemma cond_calculate_cases (sqrt : Q -> Q) (draw : nat -> nat)
    (daily_groups : DayGroups) (m : Q) (sims k : nat) :
  daily_groups <> [] ->
  UpwardCondition.calculate_threshold_crossing sqrt draw daily_groups m sims k
    = Raise ZeroDivisionError
  \/ exists pct sd line,
       UpwardCondition.calculate_threshold_crossing sqrt draw daily_groups m sims k
       = Ok (((pct, sd), line), (k + sims * length (trial_eligible daily_groups))%nat)
       /\ 0 <= pct <= 100.
Proof.
  intros Hne. rewrite cond_calculate_value by exact Hne. cbv zeta.
  match goal with
  | |- match ?t with _ => _ end = _ \/ _ => destruct t eqn:E
  end.
  - left. reflexivity.
  - right. do 3 eexists. split; [reflexivity|].
    rewrite <- E. apply percentage_bounds; lia.
Qed.

Lemma cond_multiplier_loop_cases (sqrt : Q -> Q) (draw : nat -> nat)
    (daily_groups : DayGroups) (multipliers : list Q) (results : list (Q * Q))
    (k : nat) :
  daily_groups <> [] ->
  NoDupA Qeq multipliers ->
  (forall e m, In e results -> In m multipliers -> ~ fst e == m) ->
  UpwardCondition.multiplier_loop sqrt draw daily_groups multipliers results k
    = Raise ZeroDivisionError
  \/ exists entries,
       UpwardCondition.multiplier_loop sqrt draw daily_groups multipliers results k
       = Ok (results ++ entries,
             (k + length multipliers
                  * (UpwardCondition.default_num_simulations
                     * length (trial_eligible daily_groups)))%nat)
       /\ map fst entries = multipliers
       /\ Forall (fun e => 0 <= snd e <= 100) entries.
Proof.
  intros Hne Hnd. revert results k.
  induction Hnd as [|m rest Hm Hrest IH]; intros results k Hfresh.
  - right. exists []. cbn. unfold ret. rewrite app_nil_r.
    split; [f_equal; f_equal; lia|]. split; [reflexivity | constructor].
  - cbn [UpwardCondition.multiplier_loop]. unfold bind.
    destruct (cond_calculate_cases sqrt draw daily_groups m
                UpwardCondition.default_num_simulations k Hne)
      as [Hraise | [pct [sd [line [Hcalc Hrange]]]]].
    + left. rewrite Hraise. reflexivity.
    + rewrite Hcalc. cbn [fst].
      rewrite dict_set_fresh
        by (intros e He; apply (Hfresh e m He); left; reflexivity).
      destruct (IH (results ++ [(m, pct)])
                   (k + UpwardCondition.default_num_simulations
                        * length (trial_eligible daily_groups))%nat)
        as [Hraise | [entries [Hloop [Hkeys Hall]]]].
      { intros e m' He Hm'. apply in_app_or in He. destruct He as [He|[<-|[]]].
        - apply (Hfresh e m' He). right. exact Hm'.
        - cbn. intros Heq. apply Hm. apply InA_alt. exists m'. split; assumption. }
      * left. exact Hraise.
      * right. exists ((m, pct) :: entries).
        rewrite Hloop, <- app_assoc. cbn [app length map fst].
        split; [f_equal; f_equal; lia|]. split; [f_equal; exact Hkeys|].
        constructor; assumption.
Qed.

Lemma cond_default_multipliers_distinct :
  NoDupA Qeq UpwardCondition.default_multipliers.
Proof.
  unfold UpwardCondition.default_multipliers.
  repeat (constructor;
          [intros H;
           repeat (apply InA_cons in H; destruct H as [H|H];
                   [vm_compute in H; discriminate|]);
           apply InA_nil in H; exact H|]).
  constructor.
Qed.

(** X21.  On a non-empty DayGroups and pairwise different multipliers the
    conditional [run_threshold_analysis] either raises [ZeroDivisionError],
    and then reports nothing, or returns one entry per multiplier, in the
    order given, each between 0 and 100. *)
Theorem conditional_analysis_all_or_nothing (sqrt : Q -> Q) (draw : nat -> nat)
    (daily_groups : DayGroups) (multipliers : list Q) (k : nat) :
  daily_groups <> [] ->
  NoDupA Qeq multipliers ->
  UpwardCondition.run_threshold_analysis sqrt draw daily_groups multipliers k
    = Raise ZeroDivisionError
  \/ exists results,
       UpwardCondition.run_threshold_analysis sqrt draw daily_groups multipliers k
       = Ok (results,
             (k + length multipliers * (100 * length (trial_eligible daily_groups)))%nat)
       /\ map fst results = multipliers
       /\ Forall (fun e => 0 <= snd e <= 100) results.
Proof.
  intros Hne Hnd. unfold UpwardCondition.run_threshold_analysis.
  destruct (cond_multiplier_loop_cases sqrt draw daily_groups multipliers [] k Hne Hnd)
    as [Hraise | [entries [Hloop [Hkeys Hall]]]].
  - intros e m [].
  - left. exact Hraise.
  - right. exists entries. rewrite Hloop. cbn [app].
    unfold UpwardCondition.default_num_simulations. repeat split; assumption.
Qed.

Lemma conditional_analysis_all_or_nothing_witness :
  UpwardCondition.run_threshold_analysis sqrt6 draw_zero two_days [1 # 100; 2] 0%nat
    = Raise ZeroDivisionError
  \/ exists results,
       UpwardCondition.run_threshold_analysis sqrt6 draw_zero two_days [1 # 100; 2] 0%nat
       = Ok (results, (0 + 2 * (100 * length (trial_eligible two_days)))%nat)
       /\ map fst results = [1 # 100; 2]
       /\ Forall (fun e => 0 <= snd e <= 100) results.
Proof.
  apply (conditional_analysis_all_or_nothing sqrt6 draw_zero two_days [1 # 100; 2] 0).
  - discriminate.
  - repeat (constructor;
            [intros H;
             repeat (apply InA_cons in H; destruct H as [H|H];
                     [vm_compute in H; discriminate|]);
             apply InA_nil in H; exact H|]).
    constructor.
Defined.

(** X22.  [main] of the conditional script, given a non-empty history,
    either raises [ZeroDivisionError] or reports one percentage between 0
    and 100 for each of its four default multipliers, in their order. *)
Theorem conditional_main_outcomes (sqrt : Q -> Q) (draw : nat -> nat)
    (history : DataFrame) (k : nat) :
  history <> [] ->
  UpwardCondition.main sqrt draw history k = Raise ZeroDivisionError
  \/ exists results k',
       UpwardCondition.main sqrt draw history k = Ok (results, k')
       /\ map fst results = UpwardCondition.default_multipliers
       /\ length results = 4%nat
       /\ Forall (fun e => 0 <= snd e <= 100) results.
Proof.
  intros Hne. unfold UpwardCondition.main, bind, lift.
  destruct history as [|b history]; [congruence|].
  cbn [UpwardCondition.download_forex_data].
  unfold UpwardCondition.run_threshold_analysis.
  destruct (cond_multiplier_loop_cases sqrt draw
              (snd (UpwardCondition.group_by_trading_day (b :: history)))
              UpwardCondition.default_multipliers [] k)
    as [Hraise | [entries [Hloop [Hkeys Hall]]]].
  - apply (groups_nonempty (b :: history)). discriminate.
  - apply cond_default_multipliers_distinct.
  - intros e m [].
  - left. exact Hraise.
  - right. exists entries. eexists. rewrite Hloop. cbn [app].
    split; [reflexivity|]. split; [exact Hkeys|]. split; [|exact Hall].
    rewrite <- (length_map fst), Hkeys. reflexivity.
Qed.

Lemma conditional_main_outcomes_witness :
  UpwardCondition.main sqrt6 draw_zero sample_series 0%nat = Raise ZeroDivisionError
  \/ exists results k',
       UpwardCondition.main sqrt6 draw_zero sample_series 0%nat = Ok (results, k')
       /\ map fst results = UpwardCondition.default_multipliers
       /\ length results = 4%nat
       /\ Forall (fun e => 0 <= snd e <= 100) results.
Proof.
  apply (conditional_main_outcomes sqrt6 draw_zero sample_series 0).
  discriminate.
Defined.
